(** * The live voice pipeline of [demo_live.py]

    A shallow embedding of the audio transcoding and streaming code of
    [src/demo_live.py]: the three-stage transcoder in front of the
    transcription socket ([local_asr_transcribe]), the chunk accumulator
    behind the synthesis engine ([neutts_synthesize]) and the conversation
    loop of [run_demo].

    Layout:
    - [Py]       exceptions, results, byte strings, [str.strip], JSON values;
    - [audioop]  the four functions of CPython's [audioop] module the
                 program calls, on byte lists;
    - [Demo]     the effectful code, in a state-and-exception monad over an
                 arbitrary outside world, with a trace of every outside call;
    - [Observe]  measures and projections of the trace;
    - [Stub]     a scripted outside world for concrete runs;
    - [Watch]    further observations on traces, replies and files;
    - [PyMore]   [str.lower], [in], [str.replace], iteration, subscription;
    - [Preflight] the three health checks, the pre-flight part of
                 [run_demo] and the entry point, over a wider trace;
    - the facts about [audioop], then the properties of the transcription
      adapter, the transcoding stages, the synthesis adapter and the driver,
      and the concrete runs;
    - further properties of the same code, of the health checks and of the
      whole run, and more concrete runs. *)

From Stdlib Require Import ZArith List String Ascii Lia QArith Qround Bool.
From Stdlib.Strings Require Import Byte.
From stdpp Require Import base option gmap strings list.
From Equations Require Import Equations.
Import ListNotations.

#[local] Set Warnings "-register-all".
#[local] Open Scope Z_scope.

(* ===================================================================== *)
(** ** Python values the program handles *)
(* ===================================================================== *)

Module Py.

(** Exceptions.  Every constructor stands for a subclass of Python's
    [Exception], the class the [except Exception] handlers of the file
    name; [KeyboardInterrupt] and the like, which derive from
    [BaseException] only, are interrupts of the whole run and are not
    values of this type.

    The first four are raised by CPython itself, with a text it makes
    from fixed phrases, type names, positions and byte values.  The last
    is an exception a collaborator raises (the websocket, HTTP and audio
    libraries, the synthesis engine, the console), named by its class and
    the text the collaborator gave it: a close reason, a server's message,
    a file name. *)
Inductive exn : Type :=
| AudioopError (msg : string)        (* audioop.error *)
| OverflowError                      (* an int that does not fit a C int *)
| AttributeError                     (* a method asked of the wrong type *)
| ValueError                         (* [json.loads] on a malformed text *)
| OtherException (cls : string).     (* raised by a collaborator *)

Inductive result (A : Type) : Type :=
| Ok (a : A)
| Raise (e : exn).
Arguments Ok {A} a.
Arguments Raise {A} e.

#[global] Instance result_ret : MRet result := @Ok.

#[global] Instance result_bind : MBind result := fun A B k r =>
  match r with
  | Ok a => k a
  | Raise e => Raise e
  end.

(** [bytes] objects. *)
Definition bytes := list byte.

(** The character [[] occurs in the string. *)
Fixpoint has_bracket (s : string) : bool :=
  match s with
  | EmptyString => false
  | String c s' => (N_of_ascii c =? 91)%N || has_bracket s'
  end.

(** The exceptions whose text holds no square bracket, and so nothing
    that the console's markup could take for a tag: those of CPython,
    and of [audioop] unless the message is not one of its own. *)
Definition plain (e : exn) : bool :=
  match e with
  | AudioopError msg => negb (has_bracket msg)
  | OverflowError | AttributeError | ValueError => true
  | OtherException _ => false
  end.

Definition byte_of_Z (z : Z) : byte :=
  match Byte.of_N (Z.to_N (z mod 256)) with
  | Some b => b
  | None => x00
  end.

Definition Z_of_byte (b : byte) : Z := Z.of_N (Byte.to_N b).

(** [len(b)] as a Python int. *)
Definition len {A} (l : list A) : Z := Z.of_nat (length l).

(** [str.isspace] on one character.  A [string] here is a Python [str]
    whose code points are below 256; these are the code points below 256
    that CPython's [_PyUnicode_IsWhitespace] accepts. *)
Definition is_whitespace (c : ascii) : bool :=
  let n := N_of_ascii c in
  ((9 <=? n) && (n <=? 13) || (28 <=? n) && (n <=? 32)
   || (n =? 133) || (n =? 160))%N.

Fixpoint lstrip (s : string) : string :=
  match s with
  | EmptyString => EmptyString
  | String c s' => if is_whitespace c then lstrip s' else s
  end.

Fixpoint rstrip (s : string) : string :=
  match s with
  | EmptyString => EmptyString
  | String c s' =>
      match rstrip s' with
      | EmptyString => if is_whitespace c then EmptyString
                       else String c EmptyString
      | r => String c r
      end
  end.

(** [s.strip()] *)
Definition strip (s : string) : string := rstrip (lstrip s).

(** What [json.loads] returns and [json.dumps] takes.  Numbers are never
    inspected by the program. *)
Inductive json : Type :=
| JNull
| JBool (b : bool)
| JNum (n : Z)
| JStr (s : string)
| JArr (l : list json)
| JObj (d : gmap string json).

(** [data.get(key, default)]: only a [dict] has the method. *)
Definition py_get (data : json) (key : string) (default : json)
  : result json :=
  match data with
  | JObj d => Ok (match d !! key with Some v => v | None => default end)
  | _ => Raise AttributeError
  end.

(** [v.strip()]: only a [str] has the method. *)
Definition py_strip (v : json) : result string :=
  match v with
  | JStr s => Ok (strip s)
  | _ => Raise AttributeError
  end.

(** [Text(v, ...)] of the console library, which starts by calling
    [v.translate]: only a [str] has the method. *)
Definition py_text (v : json) : result string :=
  match v with
  | JStr s => Ok s
  | _ => Raise AttributeError
  end.

End Py.
Export Py.

(* ===================================================================== *)
(** ** CPython's [audioop], as far as the program calls it *)
(* ===================================================================== *)

(** The module belongs to CPython's standard library, not to the
    repository; the definitions follow [Modules/audioop.c] of CPython 3.11
    function by function.  Fragments are byte lists holding little-endian
    two's-complement samples of [width] bytes, the layout of WAV data that
    the program hands to [audioop] unchanged.  Loops run over sample
    indices as the C loops do.  Buffer-size overflow checks (a fragment
    longer than [PY_SSIZE_T_MAX]) have no counterpart on lists. *)
Module audioop.

Definition INT_MAX : Z := 2147483647.

(** [audioop_check_size] *)
Definition check_size (size : Z) : result unit :=
  if (size <? 1) || (4 <? size)
  then Raise (AudioopError "Size should be 1, 2, 3 or 4")
  else Ok tt.

(** [audioop_check_parameters] *)
Definition check_parameters (length size : Z) : result unit :=
  _ ← check_size size;
  if negb (length mod size =? 0)
  then Raise (AudioopError "not a whole number of frames")
  else Ok tt.

(** The unsigned value of [size] bytes starting at byte offset [i]. *)
Fixpoint get_unsigned (cp : bytes) (i size : nat) : Z :=
  match size with
  | O => 0
  | S k => Z_of_byte (nth i cp x00) + 256 * get_unsigned cp (S i) k
  end.

(** [GETRAWSAMPLE(size, cp, i)]: the signed sample at byte offset [i]. *)
Definition GETRAWSAMPLE (size : Z) (cp : bytes) (i : Z) : Z :=
  let u := get_unsigned cp (Z.to_nat i) (Z.to_nat size) in
  if u <? 2 ^ (8 * size - 1) then u else u - 2 ^ (8 * size).

(** [SETRAWSAMPLE(size, cp, i, val)]: the [size] bytes it stores. *)
Fixpoint put_unsigned (size : nat) (val : Z) : bytes :=
  match size with
  | O => []
  | S k => byte_of_Z val :: put_unsigned k (val / 256)
  end.

Definition SETRAWSAMPLE (size : Z) (val : Z) : bytes :=
  put_unsigned (Z.to_nat size) val.

(** [GETSAMPLE32]: the sample scaled to 32 bits. *)
Definition GETSAMPLE32 (size : Z) (cp : bytes) (i : Z) : Z :=
  Z.shiftl (GETRAWSAMPLE size cp i) (32 - 8 * size).

(** [SETSAMPLE32]: stores the top [size] bytes of a 32-bit value. *)
Definition SETSAMPLE32 (size : Z) (val : Z) : bytes :=
  SETRAWSAMPLE size (Z.shiftr val (32 - 8 * size)).

(** The indices [0, 1, ..., n-1] of a C [for] loop. *)
Definition indices (n : Z) : list Z := map Z.of_nat (seq 0 (Z.to_nat n)).

Definition maxvals (width : Z) : Z :=
  match width with
  | 1 => 0x7F | 2 => 0x7FFF | 3 => 0x7FFFFF | 4 => 0x7FFFFFFF | _ => 0
  end.

Definition minvals (width : Z) : Z :=
  match width with
  | 1 => -0x80 | 2 => -0x8000 | 3 => -0x800000 | 4 => -0x80000000 | _ => 0
  end.

(** [fbound]: clamp, round towards minus infinity, cast to int.  The
    doubles it receives are sums of two halved 32-bit integers, which
    IEEE doubles hold exactly, so rationals compute the same values. *)
Definition fbound (val : Q) (minval maxval : Z) : Z :=
  let val :=
    if Qlt_le_dec (inject_Z maxval) val then inject_Z maxval
    else if Qlt_le_dec val (inject_Z minval + 1) then inject_Z minval
    else val in
  Qfloor val.

(** [audioop.tomono(fragment, width, lfactor, rfactor)] *)
Definition tomono (fragment : bytes) (width : Z) (lfactor rfactor : Q)
  : result bytes :=
  let length := len fragment in
  _ ← check_parameters length width;
  if Z.odd (length / width)
  then Raise (AudioopError "not a whole number of frames")
  else
    Ok (flat_map
          (fun k =>
             let i := k * (width * 2) in
             let val1 := GETRAWSAMPLE width fragment i in
             let val2 := GETRAWSAMPLE width fragment (i + width) in
             let val := (inject_Z val1 * lfactor
                         + inject_Z val2 * rfactor)%Q in
             SETRAWSAMPLE width
               (fbound val (minvals width) (maxvals width)))
          (indices (length / (width * 2)))).

(** The inner loop [while (d >= 0)] of [ratecv] for one channel: each
    round stores one interpolated output sample and lowers [d] by
    [inrate].  The products stay below 2^53 for the rates of audio files
    and the quotient is cast to [int], so truncating integer division
    computes the same sample as the C doubles.  [inrate] has passed the
    [inrate <= 0] check, hence its type. *)
Equations ratecv_emit (width : Z) (inrate : positive)
  (outrate prev_i cur_i d : Z) : bytes * Z
  by wf (Z.to_nat (d + 1)) lt :=
ratecv_emit width inrate outrate prev_i cur_i d with Z_lt_dec d 0 := {
  | left _ => ([], d)
  | right _ =>
      let cur_o := Z.quot (prev_i * d + cur_i * (outrate - d)) outrate in
      let '(ncp, d') :=
        ratecv_emit width inrate outrate prev_i cur_i (d - Z.pos inrate) in
      (SETSAMPLE32 width cur_o ++ ncp, d') }.
Next Obligation. lia. Qed.

(** The outer loop of [ratecv] for one channel, over the input samples
    still unread.  It is entered with [d < 0]: every round of
    [while (d < 0)] reads one sample (with the default weights 1 and 0
    the digital filter leaves it unchanged) and raises [d] by [outrate];
    once [d >= 0] the inner loop runs.  With no sample left the function
    returns the bytes stored and the state [(d, (prev_i, cur_i))]. *)
Fixpoint ratecv_loop (width : Z) (inrate : positive) (outrate : Z)
  (samples : list Z) (d prev_i cur_i : Z) : bytes * (Z * (Z * Z)) :=
  match samples with
  | [] => ([], (d, (prev_i, cur_i)))
  | s :: samples' =>
      let prev_i := cur_i in
      let cur_i := s in
      let d := d + outrate in
      let '(ncp, d) := ratecv_emit width inrate outrate prev_i cur_i d in
      let '(ncp', st) :=
        ratecv_loop width inrate outrate samples' d prev_i cur_i in
      (ncp ++ ncp', st)
  end.

(** [audioop.ratecv(fragment, width, nchannels, inrate, outrate, None)]
    for [nchannels = 1] and the default weights, the only way the program
    calls it.  [inrate] arrives as a Python int and must fit a C int. *)
Definition ratecv (fragment : bytes) (width inrate outrate : Z)
  : result (bytes * (Z * (Z * Z))) :=
  if (inrate <? - INT_MAX - 1) || (INT_MAX <? inrate) then Raise OverflowError
  else
    _ ← check_size width;
    let bytes_per_frame := width * 1 in
    if negb (len fragment mod bytes_per_frame =? 0)
    then Raise (AudioopError "not a whole number of frames")
    else if (inrate <=? 0) || (outrate <=? 0)
    then Raise (AudioopError "sampling rate not > 0")
    else
      let g := Z.gcd inrate outrate in
      let inrate := inrate / g in
      let outrate := outrate / g in
      let length := len fragment / bytes_per_frame in
      let d := - outrate in
      Ok (ratecv_loop width (Z.to_pos inrate) outrate
            (map (fun k => GETSAMPLE32 width fragment (k * width))
               (indices length))
            d 0 0).

Definition BIAS : Z := 0x84.
Definition CLIP : Z := 32635.
Definition SIGN_BIT : Z := 0x80.
Definition QUANT_MASK : Z := 0xf.
Definition SEG_SHIFT : Z := 4.
Definition SEG_MASK : Z := 0x70.

Definition seg_uend : list Z :=
  [0x3F; 0x7F; 0xFF; 0x1FF; 0x3FF; 0x7FF; 0xFFF; 0x1FFF].

(** [search]: the index of the first table entry not below [val], or the
    table's size. *)
Fixpoint search (val : Z) (table : list Z) : Z :=
  match table with
  | [] => 0
  | t :: table' => if val <=? t then 0 else 1 + search val table'
  end.

(** [st_14linear2ulaw]: a 14-bit linear sample to a mu-law byte. *)
Definition st_14linear2ulaw (pcm_val : Z) : Z :=
  let '(pcm_val, mask) :=
    if pcm_val <? 0 then (- pcm_val, 0x7F) else (pcm_val, 0xFF) in
  let pcm_val := if CLIP <? pcm_val then CLIP else pcm_val in
  let pcm_val := pcm_val + Z.shiftr BIAS 2 in
  let seg := search pcm_val seg_uend in
  if 8 <=? seg then Z.lxor 0x7F mask
  else
    let uval := Z.lor (Z.shiftl seg 4)
                  (Z.land (Z.shiftr pcm_val (seg + 1)) 0xF) in
    Z.lxor uval mask.

(** [st_ulaw2linear16]: the entry of the decoding table for [u_val],
    by the rule the table was generated with. *)
Definition st_ulaw2linear16 (u_val : Z) : Z :=
  let u_val := Z.lxor u_val 0xFF in
  let t := Z.shiftl (Z.land u_val QUANT_MASK) 3 + BIAS in
  let t := Z.shiftl t (Z.shiftr (Z.land u_val SEG_MASK) SEG_SHIFT) in
  if Z.land u_val SIGN_BIT =? 0 then t - BIAS else BIAS - t.

(** [audioop.lin2ulaw(fragment, width)] *)
Definition lin2ulaw (fragment : bytes) (width : Z) : result bytes :=
  _ ← check_parameters (len fragment) width;
  Ok (map
        (fun k =>
           let val := GETSAMPLE32 width fragment (k * width) in
           byte_of_Z (st_14linear2ulaw (Z.shiftr val 18)))
        (indices (len fragment / width))).

(** [audioop.ulaw2lin(fragment, width)] *)
Definition ulaw2lin (fragment : bytes) (width : Z) : result bytes :=
  _ ← check_size width;
  Ok (flat_map
        (fun b =>
           let val := Z.shiftl (st_ulaw2linear16 (Z_of_byte b)) 16 in
           SETSAMPLE32 width val)
        fragment).

End audioop.

(* ===================================================================== *)
(** ** The effectful code of [demo_live.py] *)
(* ===================================================================== *)

Module Demo.

Definition path := string.

(** What the [wave] reader hands over (lines 125-129): the frames and the
    header fields the program asks for. *)
Record wav : Type := {
  frames : bytes;
  width : Z;
  rate : Z;
  n_channels : Z;
}.

(** A websocket message: [bytes] go out as a binary frame, [str] as a
    text frame. *)
Inductive message : Type :=
| Binary (b : bytes)
| Text (s : string).

(** A reply of the dialogue service.  By the service's contract the body
    of its answer is a JSON array of objects, each of which may hold a
    [text]; the program looks at nothing else. *)
Abbreviation reply := (gmap string json).

(** What the HTTP response of the dialogue service offers: [resp.status]
    and the outcome of [await resp.json()]. *)
Record http_response : Type := {
  status : Z;
  json_body : result (list reply);
}.

(** The synthesis engine's asynchronous generator for one text: the
    chunks it yields, and the exception that ends it if it does not end
    by itself. *)
Record chunk_stream : Type := {
  chunks : list bytes;
  failure : option exn;
}.

(** Chat bubbles of the dashboard. *)
Inductive panel : Type :=
| UserPanel (transcript : string)
| AgentPanel (agent_text : json).

(** Lines printed with [console.print].  Those that hold the text of an
    exception are written [f"[red]...: {e}[/red]"] in the source. *)
Inductive log_line : Type :=
| AsrError (e : exn)
| TtsError (e : exn)
| MissingFile (p : path)
| NoTranscript (p : path)
| RasaStatusError (status : Z)
| RasaRequestFailed (e : exn).

(** Texts shown in the status footer. *)
Inductive status_line : Type :=
| UserSpeaking (label : string)
| Transcribing
| RasaThinking
| NeuTTSSpeaking.

(** Everything the program does to the outside, in the order it does
    it. *)
Inductive event : Type :=
| EvLog (l : log_line)                   (* console.print(...) *)
| EvStatus (s : status_line)             (* layout["status"].update(...) *)
| EvChatView (visible : list panel)      (* layout["main"].update(...) *)
| EvPathExists (p : path)                (* audio_path.exists() *)
| EvPlayFile (p : path)                  (* play(AudioSegment.from_wav(p)) *)
| EvWsConnect (open_timeout : Z)         (* websockets.connect(LOCAL_ASR_URL) *)
| EvWsClose                              (* leaving the [async with] *)
| EvWaveRead (p : path)                  (* wave.open(p) ... readframes *)
| EvWsSend (m : message)                 (* await ws.send(m) *)
| EvWsRecv                               (* await ws.recv() *)
| EvRasaPost (sender msg : string)       (* session.post(RASA_URL, json=...) *)
| EvSynthesize (text : json)             (* tts_service.synthesize(text) *)
| EvPlaySegment (pcm : bytes)            (* play(AudioSegment(data=pcm, ...)) *)
| EvSleep.                               (* time.sleep(0.5) *)

(** The collaborators, over an arbitrary state [W] of the outside world.
    Each call may change that state and, where the Python call can raise,
    return an exception.  [json_loads] is [None] where [json.loads] raises:
    what it raises is a [ValueError] (a [JSONDecodeError], or a
    [UnicodeDecodeError] for bytes that are not UTF-8).  [console_print]
    is the console's answer to a line that holds the text of an exception
    a collaborator raised: it parses the line as markup and raises, instead
    of printing, when the text holds a closing tag that matches no open
    one. *)
Record services (W : Type) : Type := {
  path_exists : path -> W -> bool * W;
  play_file : path -> W -> result unit * W;
  ws_connect : W -> result unit * W;
  ws_close : W -> result unit * W;
  wave_read : path -> W -> result wav * W;
  ws_send : message -> W -> result unit * W;
  ws_recv : W -> result message * W;
  rasa_post : string -> string -> W -> result http_response * W;
  tts_synthesize : json -> W -> chunk_stream * W;
  play_segment : bytes -> W -> result unit * W;
  json_dumps : json -> string;
  json_loads : message -> option json;
  console_print : log_line -> W -> result unit * W;
}.
Arguments path_exists {W}. Arguments play_file {W}.
Arguments ws_connect {W}. Arguments ws_close {W}.
Arguments wave_read {W}. Arguments ws_send {W}. Arguments ws_recv {W}.
Arguments rasa_post {W}. Arguments tts_synthesize {W}.
Arguments play_segment {W}.
Arguments json_dumps {W}. Arguments json_loads {W}.
Arguments console_print {W}.

(** Configuration (lines 43-63). *)
Definition AUDIO_DIR : path := "tests/audio".

Record conversation_step : Type := { file : string; label : string }.

Definition CONVERSATION_STEPS : list conversation_step :=
  [ {| file := "user_input_1.wav"; label := "Transfer Request" |};
    {| file := "user_input_2.wav"; label := "Account Selection" |};
    {| file := "user_input_3.wav"; label := "Account Destination" |};
    {| file := "user_input_4.wav"; label := "Amount" |};
    {| file := "user_input_5.wav"; label := "Confirmation" |} ].

Definition MAX_VISIBLE_BUBBLES : nat := 6.

(** [AUDIO_DIR / name] for a relative file name. *)
Definition path_join (dir : path) (name : string) : path :=
  (dir ++ "/" ++ name)%string.

(** *** The transcoding stages (lines 131-140), free of effects *)

(** "Convert to mono" *)
Definition convert_to_mono (frames : bytes) (width n_channels : Z)
  : result bytes :=
  if n_channels =? 2 then audioop.tomono frames width (1 # 2) (1 # 2)
  else Ok frames.

(** "Resample to 8kHz" *)
Definition resample_to_8k (frames : bytes) (width rate : Z)
  : result bytes :=
  if negb (rate =? 8000)
  then '(frames, _) ← audioop.ratecv frames width rate 8000; Ok frames
  else Ok frames.

(** The three stages on what was read from the file. *)
Definition transcode (w : wav) : result bytes :=
  frames ← convert_to_mono (frames w) (width w) (n_channels w);
  frames ← resample_to_8k frames (width w) (rate w);
  (* Encode to u-law *)
  audioop.lin2ulaw frames (width w).

Section Pipeline.

Context {W : Type} (sv : services W).

(** State: the outside world and the trace of calls made so far. *)
Definition state : Type := W * list event.

Definition M (A : Type) : Type := state -> result A * state.

#[global] Instance M_ret : MRet M := fun A a s => (Ok a, s).

#[global] Instance M_bind : MBind M := fun A B k m s =>
  match m s with
  | (Ok a, s') => k a s'
  | (Raise e, s') => (Raise e, s')
  end.

(** A call to a collaborator: noted in the trace, then answered by the
    world. *)
Definition call {A} (ev : event) (f : W -> result A * W) : M A :=
  fun '(w, tr) => let '(r, w') := f w in (r, (w', tr ++ [ev])).

(** A call that cannot raise. *)
Definition ask {A} (ev : event) (f : W -> A * W) : M A :=
  fun '(w, tr) => let '(a, w') := f w in (Ok a, (w', tr ++ [ev])).

(** An effect on the terminal only. *)
Definition emit (ev : event) : M unit :=
  fun '(w, tr) => (Ok tt, (w, tr ++ [ev])).

(** A pure computation that may raise. *)
Definition lift {A} (r : result A) : M A := fun s => (r, s).

(** [try: body  except Exception as e: handler e] *)
Definition try_except {A} (body : M A) (handler : exn -> M A) : M A :=
  fun s =>
    match body s with
    | (Ok a, s') => (Ok a, s')
    | (Raise e, s') => handler e s'
    end.

(** What [console.print] does with the line [line e], which holds the
    text of [e] between the program's own [[red]] and [[/red]]: the text
    of a [plain] exception holds no square bracket, so the line is
    printed; any other text is the console's to accept or to reject.  The
    lines that hold a status code or the path of a step of
    [CONVERSATION_STEPS] hold no text from outside and are printed. *)
Definition print_outcome (line : exn -> log_line) (e : exn)
  : W -> result unit * W :=
  fun w => if plain e then (Ok tt, w) else console_print sv (line e) w.

(** [console.print(f"[red]...: {e}[/red]")] in an [except] clause: what
    the console raises leaves the clause. *)
Definition print_error (line : exn -> log_line) (e : exn) : M unit :=
  call (EvLog (line e)) (print_outcome line e).

(** [json.loads(response)] *)
Definition py_loads (response : message) : result json :=
  match json_loads sv response with
  | Some data => Ok data
  | None => Raise ValueError
  end.

(** Leaving an [async with websockets.connect(...)] block: the
    connection is closed on every way out of the body; an exception of
    the body is raised again after the close unless the close raises
    itself. *)
Definition closing {A} (body : M A) : M A :=
  fun s =>
    match body s with
    | (Ok a, s') =>
        match call EvWsClose (ws_close sv) s' with
        | (Ok _, s'') => (Ok a, s'')
        | (Raise e, s'') => (Raise e, s'')
        end
    | (Raise e, s') =>
        match call EvWsClose (ws_close sv) s' with
        | (Ok _, s'') => (Raise e, s'')
        | (Raise e', s'') => (Raise e', s'')
        end
    end.

(** [async with websockets.connect(LOCAL_ASR_URL, open_timeout=t) as ws:
    body] *)
Definition with_connection {A} (open_timeout : Z) (body : M A) : M A :=
  _ ← call (EvWsConnect open_timeout) (ws_connect sv);
  closing body.

(** The control message of line 146. *)
Definition transcribe_request : json :=
  JObj {[ "action"%string := JStr "transcribe" ]}.

(** The body of the [try] of [local_asr_transcribe] (lines 123-151). *)
Definition local_asr_session (audio_path : path) : M string :=
  with_connection 5 (
    (* Read WAV file *)
    w ← call (EvWaveRead audio_path) (wave_read sv audio_path);
    mulaw_bytes ← lift (transcode w);
    (* Send audio bytes *)
    _ ← call (EvWsSend (Binary mulaw_bytes))
          (ws_send sv (Binary mulaw_bytes));
    (* Trigger transcription *)
    let request := Text (json_dumps sv transcribe_request) in
    _ ← call (EvWsSend request) (ws_send sv request);
    (* Wait for response *)
    response ← call EvWsRecv (ws_recv sv);
    data ← lift (py_loads response);
    text ← lift (py_get data "text" (JStr ""));
    lift (py_strip text)).

(** [local_asr_transcribe] (lines 117-155) *)
Definition local_asr_transcribe (audio_path : path) : M string :=
  try_except (local_asr_session audio_path)
    (fun e => _ ← print_error AsrError e; mret ""%string).

(** [ulaw_data.extend(chunk)] for each chunk of the generator. *)
Definition extend_all (chunks : list bytes) : bytes :=
  fold_left (fun ulaw_data chunk => ulaw_data ++ chunk) chunks [].

(** The body of the [try] of [neutts_synthesize] (lines 163-172). *)
Definition neutts_session (text : json) : M bytes :=
  stream ← ask (EvSynthesize text) (tts_synthesize sv text);
  let ulaw_data := extend_all (chunks stream) in
  match failure stream with
  | Some e => lift (Raise e)
  | None =>
      match ulaw_data with
      | [] => mret []
      | _ =>
          (* Convert mulaw back to PCM for playback *)
          pcm_data ← lift (audioop.ulaw2lin ulaw_data 2);
          mret pcm_data
      end
  end.

(** [neutts_synthesize] (lines 157-177) *)
Definition neutts_synthesize (text : json) : M bytes :=
  try_except (neutts_session text)
    (fun e => _ ← print_error TtsError e; mret []).

(** [update_chat_view] (lines 193-203): [full_history[-6:]] *)
Definition update_chat_view (full_history : list panel) : M unit :=
  let visible_history :=
    skipn (length full_history - MAX_VISIBLE_BUBBLES)%nat full_history in
  emit (EvChatView visible_history).

(** "STATE: AGENT SPEAKING" (lines 356-389): the loop over the
    replies; it returns the history it has extended.  The panel of a
    reply is built around [Text(agent_text, ...)], which raises for a
    text that is not a string. *)
Fixpoint agent_speaking (bot_responses : list reply)
  (full_history : list panel) : M (list panel) :=
  match bot_responses with
  | [] => mret full_history
  | response :: bot_responses' =>
      match response !! "text"%string with
      | Some agent_text =>
          (* Add Agent Message *)
          _ ← lift (py_text agent_text);
          let full_history := full_history ++ [AgentPanel agent_text] in
          _ ← update_chat_view full_history;
          _ ← emit (EvStatus NeuTTSSpeaking);
          (* Generate and Play *)
          pcm_audio ← neutts_synthesize agent_text;
          _ ← match pcm_audio with
              | [] => mret tt
              | _ => call (EvPlaySegment pcm_audio)
                       (play_segment sv pcm_audio)
              end;
          agent_speaking bot_responses' full_history
      | None => agent_speaking bot_responses' full_history
      end
  end.

(** "STATE: RASA THINKING" (lines 340-353): [Some] replies, or [None]
    where the code says [continue]. *)
Definition rasa_thinking (transcript : string)
  : M (option (list reply)) :=
  try_except
    (resp ← call (EvRasaPost "demo-user" transcript)
              (rasa_post sv "demo-user" transcript);
     if negb (status resp =? 200)
     then _ ← emit (EvLog (RasaStatusError (status resp))); mret None
     else bot_responses ← lift (json_body resp); mret (Some bot_responses))
    (fun e => _ ← print_error RasaRequestFailed e; mret None).

(** One round of the main conversation loop (lines 293-391). *)
Definition run_demo_step (step : conversation_step)
  (full_history : list panel) : M (list panel) :=
  let audio_path := path_join AUDIO_DIR (file step) in
  present ← ask (EvPathExists audio_path) (path_exists sv audio_path);
  if negb present
  then _ ← emit (EvLog (MissingFile audio_path)); mret full_history
  else
    _ ← emit (EvStatus (UserSpeaking (label step)));
    (* Play user audio *)
    _ ← call (EvPlayFile audio_path) (play_file sv audio_path);
    _ ← emit (EvStatus Transcribing);
    transcript ← local_asr_transcribe audio_path;
    if String.eqb transcript ""
    then _ ← emit (EvLog (NoTranscript audio_path)); mret full_history
    else
      (* Add User Message *)
      let full_history := full_history ++ [UserPanel transcript] in
      _ ← update_chat_view full_history;
      _ ← emit (EvStatus RasaThinking);
      answer ← rasa_thinking transcript;
      match answer with
      | None => mret full_history
      | Some bot_responses =>
          full_history ← agent_speaking bot_responses full_history;
          _ ← emit EvSleep;
          mret full_history
      end.

(** The main conversation loop (line 292). *)
Fixpoint run_demo_loop (steps : list conversation_step)
  (full_history : list panel) : M (list panel) :=
  match steps with
  | [] => mret full_history
  | step :: steps' =>
      full_history ← run_demo_step step full_history;
      run_demo_loop steps' full_history
  end.

End Pipeline.

End Demo.

(* ===================================================================== *)
(** ** Measures and observations the properties are stated with *)
(* ===================================================================== *)

Module Observe.
Import Demo.

(** [w.getnframes()] for a file read in full. *)
Definition nframes (w : wav) : Z :=
  len (frames w) / (n_channels w * width w).

(** The playing time of a file, in seconds. *)
Definition duration_seconds (w : wav) : Q :=
  inject_Z (nframes w) / inject_Z (rate w).

(** The texts of the replies that have one, in the order of the replies. *)
Definition reply_texts (bot_responses : list reply) : list json :=
  omap (fun response : reply => response !! "text"%string) bot_responses.

Definition is_synthesis (ev : event) : bool :=
  match ev with EvSynthesize _ => true | _ => false end.

Definition is_playback (ev : event) : bool :=
  match ev with EvPlaySegment _ => true | _ => false end.

(** The part of a trace that concerns the agent's voice. *)
Definition voice (tr : list event) : list event :=
  List.filter (fun ev => is_synthesis ev || is_playback ev) tr.

(** The playback invocations of a trace. *)
Definition playbacks (tr : list event) : list event :=
  List.filter is_playback tr.

(** What the voice part shows for one reply text whose synthesis returned
    [pcm]: the synthesis, then the playback unless [pcm] is empty. *)
Definition spoken (text : json) (pcm : bytes) : list event :=
  EvSynthesize text ::
  match pcm with
  | [] => []
  | _ => [EvPlaySegment pcm]
  end.

(** A buffer that is not empty. *)
Definition has_sound (pcm : bytes) : bool :=
  match pcm with
  | [] => false
  | _ => true
  end.

(** What [neutts_synthesize] returns for a text from the world [w], and
    the world it leaves. *)
Definition synthesized {W : Type} (sv : services W) (text : json) (w : W)
  : result bytes * W :=
  let '(r, (w', _)) := neutts_synthesize sv text (w, []) in (r, w').

(** What the driver does with the buffer a synthesis returned: it plays
    it unless it is empty. *)
Definition played {W : Type} (sv : services W) (pcm : bytes) (w : W)
  : result unit * W :=
  if has_sound pcm then play_segment sv pcm w else (Ok tt, w).

(** From the world [w] the texts are spoken one after the other: each is
    synthesised, [neutts_synthesize] returns the buffer listed for it,
    that buffer is played unless it is empty, and the next text starts
    from the world this leaves. *)
Inductive replies_spoken {W : Type} (sv : services W)
  : list json -> W -> list bytes -> W -> Prop :=
| spoken_none w : replies_spoken sv [] w [] w
| spoken_next text texts pcm pcms w w1 w2 w3 :
    synthesized sv text w = (Ok pcm, w1) ->
    played sv pcm w1 = (Ok tt, w2) ->
    replies_spoken sv texts w2 pcms w3 ->
    replies_spoken sv (text :: texts) w (pcm :: pcms) w3.

End Observe.

(* ===================================================================== *)
(** ** A scripted outside world, for concrete runs *)
(* ===================================================================== *)

Module Stub.
Import Demo.

(** The script: which files exist and what they hold, whether the
    transcription service accepts connections and what its reply parses
    to, what the dialogue service answers, what the engine yields. *)
Record script : Type := {
  files : path -> option wav;
  asr_up : bool;
  asr_answer : json;
  dialogue : result http_response;
  engine : json -> chunk_stream;
}.

Definition ConnectionRefusedError : exn := OtherException "ConnectionRefusedError".
Definition FileNotFoundError : exn := OtherException "FileNotFoundError".
Definition RuntimeError : exn := OtherException "RuntimeError".

(** What the console raises for a closing tag that matches no open one. *)
Definition MarkupError : exn :=
  OtherException
    "MarkupError: closing tag '[/oops]' doesn't match any open tag".

(** The text a collaborator gave its exception. *)
Definition exn_text (e : exn) : string :=
  match e with
  | OtherException text => text
  | _ => ""
  end.

Definition line_text (line : log_line) : string :=
  match line with
  | AsrError e | TtsError e | RasaRequestFailed e => exn_text e
  | _ => ""
  end.

(** The text holds [[/]: the start of a closing tag. *)
Fixpoint has_closing_tag (s : string) : bool :=
  match s with
  | EmptyString => false
  | String c s' =>
      match s' with
      | String c' _ =>
          (N_of_ascii c =? 91)%N && (N_of_ascii c' =? 47)%N
          || has_closing_tag s'
      | EmptyString => false
      end
  end.

Definition quote : string := String (ascii_of_nat 34) EmptyString.

(** [json.dumps] of the one value the program serialises. *)
Definition dumps (j : json) : string :=
  ("{" ++ quote ++ "action" ++ quote ++ ": "
       ++ quote ++ "transcribe" ++ quote ++ "}")%string.

(** The services that play the script; the world has no state. *)
Definition world (sc : script) : services unit := {|
  path_exists p _ :=
    (match files sc p with Some _ => true | None => false end, tt);
  play_file _ _ := (Ok tt, tt);
  ws_connect _ :=
    (if asr_up sc then Ok tt else Raise ConnectionRefusedError, tt);
  ws_close _ := (Ok tt, tt);
  wave_read p _ :=
    (match files sc p with Some w => Ok w | None => Raise FileNotFoundError end,
     tt);
  ws_send _ _ := (Ok tt, tt);
  ws_recv _ := (Ok (Text "reply"), tt);
  rasa_post _ _ _ := (dialogue sc, tt);
  tts_synthesize text _ := (engine sc text, tt);
  play_segment _ _ := (Ok tt, tt);
  json_dumps := dumps;
  json_loads _ := Some (asr_answer sc);
  console_print line _ :=
    (if has_closing_tag (line_text line) then Raise MarkupError else Ok tt,
     tt);
|}.

Definition first_input : path := path_join AUDIO_DIR "user_input_1.wav".

(** Three stereo frames of 16-bit samples at 16 kHz. *)
Definition stereo_16k : wav := {|
  frames := map byte_of_Z [0; 16; 0; 32; 255; 127; 1; 128; 52; 18; 204; 237];
  width := 2;
  rate := 16000;
  n_channels := 2;
|}.

(** The same bytes declared as two frames of three channels at 8 kHz. *)
Definition three_channels : wav := {|
  frames := frames stereo_16k;
  width := 2;
  rate := 8000;
  n_channels := 3;
|}.

(** One frame of one 64-bit sample, a width [audioop] does not take. *)
Definition double_width : wav := {|
  frames := repeat x00 8;
  width := 8;
  rate := 8000;
  n_channels := 1;
|}.

Definition which_account : reply :=
  {[ "text"%string := JStr "Which account?" ]}.
Definition checking_or_savings : reply :=
  {[ "text"%string := JStr "Checking or savings?" ]}.
Definition image_only : reply :=
  {[ "image"%string := JStr "https://example.org/card.png" ]}.

(** An engine that yields three chunks of 160 bytes for every text. *)
Definition three_chunks (text : json) : chunk_stream := {|
  chunks := [repeat x00 160; repeat x7f 160; repeat xff 160];
  failure := None;
|}.

(** An engine that yields nothing. *)
Definition silent (text : json) : chunk_stream :=
  {| chunks := []; failure := None |}.

(** An engine that raises after its first chunk. *)
Definition broken (text : json) : chunk_stream :=
  {| chunks := [repeat x00 160]; failure := Some RuntimeError |}.

(** Everything works. *)
Definition studio : script := {|
  files p := if String.eqb p first_input then Some stereo_16k else None;
  asr_up := true;
  asr_answer := JObj {[ "text"%string := JStr " I want to transfer money. " ]};
  dialogue := Ok {| status := 200;
                    json_body := Ok [which_account; checking_or_savings] |};
  engine := three_chunks;
|}.

(** The transcription service is down. *)
Definition unreachable : script := {|
  files := files studio;
  asr_up := false;
  asr_answer := asr_answer studio;
  dialogue := dialogue studio;
  engine := engine studio;
|}.

(** The engine yields nothing. *)
Definition mute : script := {|
  files := files studio;
  asr_up := asr_up studio;
  asr_answer := asr_answer studio;
  dialogue := dialogue studio;
  engine := silent;
|}.

(** The engine raises. *)
Definition faulty : script := {|
  files := files studio;
  asr_up := asr_up studio;
  asr_answer := asr_answer studio;
  dialogue := dialogue studio;
  engine := broken;
|}.

(** The first input file holds three channels. *)
Definition surround : script := {|
  files p := if String.eqb p first_input then Some three_channels else None;
  asr_up := asr_up studio;
  asr_answer := asr_answer studio;
  dialogue := dialogue studio;
  engine := engine studio;
|}.

(** The first input file holds 64-bit samples. *)
Definition wide : script := {|
  files p := if String.eqb p first_input then Some double_width else None;
  asr_up := asr_up studio;
  asr_answer := asr_answer studio;
  dialogue := dialogue studio;
  engine := engine studio;
|}.

(** The close reason of a transcription server that hangs up, as the
    websocket library reports it. *)
Definition ConnectionClosedError : exn :=
  OtherException
    "ConnectionClosedError: received 1011 (internal error) [/oops]; then sent 1011 (internal error) [/oops]".

(** The services of a script, but for a transcription server that closes
    the connection with the reason [[/oops]] instead of replying. *)
Definition hung_up (sc : script) : services unit := {|
  path_exists := path_exists (world sc);
  play_file := play_file (world sc);
  ws_connect := ws_connect (world sc);
  ws_close := ws_close (world sc);
  wave_read := wave_read (world sc);
  ws_send := ws_send (world sc);
  ws_recv _ := (Raise ConnectionClosedError, tt);
  rasa_post := rasa_post (world sc);
  tts_synthesize := tts_synthesize (world sc);
  play_segment := play_segment (world sc);
  json_dumps := json_dumps (world sc);
  json_loads := json_loads (world sc);
  console_print := console_print (world sc);
|}.

(** An engine that raises after its first chunk, with a text that quotes
    a token of its language model. *)
Definition UnexpectedToken : exn :=
  OtherException "RuntimeError: unexpected token [/INST] in the output".

Definition confused (text : json) : chunk_stream :=
  {| chunks := [repeat x00 160]; failure := Some UnexpectedToken |}.

Definition garbled : script := {|
  files := files studio;
  asr_up := asr_up studio;
  asr_answer := asr_answer studio;
  dialogue := dialogue studio;
  engine := confused;
|}.

Definition first_step : conversation_step :=
  {| file := "user_input_1.wav"; label := "Transfer Request" |}.

Definition second_step : conversation_step :=
  {| file := "user_input_2.wav"; label := "Account Selection" |}.

(** The state a run starts from. *)
Definition start : @state unit := (tt, []).

(** The control message as the stub serialises it. *)
Definition request : message := Text (dumps transcribe_request).

End Stub.

(* ===================================================================== *)
(** ** Further observations *)
(* ===================================================================== *)

Module Watch.
Import Demo.

Definition is_log (ev : event) : bool :=
  match ev with EvLog _ => true | _ => false end.

(** What may follow an opened connection: reads of the file, sends and
    receives, then the close, then log lines only. *)
Fixpoint closes_once (evs : list event) : bool :=
  match evs with
  | EvWsClose :: logs => forallb is_log logs
  | EvWaveRead _ :: evs' => closes_once evs'
  | EvWsSend _ :: evs' => closes_once evs'
  | EvWsRecv :: evs' => closes_once evs'
  | _ => false
  end.

(** A session that opens the connection with the timeout of
    [local_asr_transcribe] and closes it once, after its last use. *)
Definition opened_and_closed (evs : list event) : bool :=
  match evs with
  | EvWsConnect 5 :: evs' => closes_once evs'
  | _ => false
  end.

(** The first and the last character of a string, if any. *)
Definition first_char (s : string) : option ascii :=
  match s with
  | EmptyString => None
  | String c _ => Some c
  end.

Fixpoint last_char (s : string) : option ascii :=
  match s with
  | EmptyString => None
  | String c EmptyString => Some c
  | String _ s' => last_char s'
  end.

(** Every character of the string is whitespace. *)
Fixpoint all_whitespace (s : string) : bool :=
  match s with
  | EmptyString => true
  | String c s' => is_whitespace c && all_whitespace s'
  end.

(** A reply of the transcription service the program cannot use: one
    that [json.loads] rejects, one that is not an object, or an object
    whose [text] is not a string. *)
Definition unusable_reply (parsed : option json) : Prop :=
  match parsed with
  | None => True
  | Some (JObj d) =>
      exists v, d !! "text"%string = Some v /\ forall s, v <> JStr s
  | Some _ => True
  end.

(** The line the driver prints when the dialogue service gives it no
    replies: the request raised, the status is not 200, or the body could
    not be read as JSON.  [None] when it gives replies. *)
Definition dialogue_failure (outcome : result http_response)
  : option log_line :=
  match outcome with
  | Raise e => Some (RasaRequestFailed e)
  | Ok resp =>
      if status resp =? 200 then
        match json_body resp with
        | Raise e => Some (RasaRequestFailed e)
        | Ok _ => None
        end
      else Some (RasaStatusError (status resp))
  end.

(** What the console does with a line of the conversation: it prints
    the lines the program wrote by itself, and those that hold the text of
    an exception as [print_outcome] says. *)
Definition line_printed {W : Type} (sv : services W) (line : log_line)
  (w : W) : result unit * W :=
  match line with
  | AsrError e => print_outcome sv AsrError e w
  | TtsError e => print_outcome sv TtsError e w
  | RasaRequestFailed e => print_outcome sv RasaRequestFailed e w
  | MissingFile _ | NoTranscript _ | RasaStatusError _ => (Ok tt, w)
  end.

(** [full_history[-MAX_VISIBLE_BUBBLES:]] *)
Definition latest (full_history : list panel) : list panel :=
  skipn (length full_history - MAX_VISIBLE_BUBBLES)%nat full_history.

(** The number of samples left after the mono stage: one for each frame
    of a two-channel file, and every sample of any other file. *)
Definition mono_samples (w : wav) : Z :=
  len (frames w) / (width w * (if n_channels w =? 2 then 2 else 1)).

(** The files [transcode] accepts: samples of one to four bytes, whole
    samples (whole frames for two channels), and a rate that is 8000 or
    else positive and within a C int. *)
Definition transcodable (w : wav) : bool :=
  (1 <=? width w) && (width w <=? 4)
  && (len (frames w) mod width w =? 0)
  && (if n_channels w =? 2 then Z.even (len (frames w) / width w) else true)
  && ((rate w =? 8000)
      || ((0 <? rate w) && (rate w <=? audioop.INT_MAX))).

End Watch.

(* ===================================================================== *)
(** ** More of Python: [str.lower], [in], iteration, subscription *)
(* ===================================================================== *)

Module PyMore.

Definition KeyError : exn := OtherException "KeyError".
Definition TypeError : exn := OtherException "TypeError".

(** [c.lower()] for a code point below 256: the ASCII capitals and the
    Latin-1 capitals (all of [0xC0..0xDE] but the sign [0xD7]) move up by
    32. *)
Definition lower_char (c : ascii) : ascii :=
  let n := N_of_ascii c in
  if ((65 <=? n) && (n <=? 90)
      || (192 <=? n) && (n <=? 222) && negb (n =? 215))%N
  then ascii_of_N (n + 32)
  else c.

(** [s.lower()] *)
Fixpoint lower (s : string) : string :=
  match s with
  | EmptyString => EmptyString
  | String c s' => String (lower_char c) (lower s')
  end.

(** [needle in s] for two strings. *)
Fixpoint contains (needle s : string) : bool :=
  String.prefix needle s
  || match s with
     | EmptyString => false
     | String _ s' => contains needle s'
     end.

(** [s.replace(old, "")] for a non-empty [old]: every occurrence of [old]
    found from left to right, none overlapping an earlier one, is left
    out.  [skip] counts the characters of an occurrence still to pass. *)
Fixpoint remove_from (old : string) (skip : nat) (s : string) : string :=
  match s with
  | EmptyString => EmptyString
  | String c s' =>
      match skip with
      | S k => remove_from old k s'
      | O =>
          if String.prefix old s
          then remove_from old (String.length old - 1) s'
          else String c (remove_from old 0 s')
      end
  end.

Definition remove_all (old s : string) : string := remove_from old 0 s.

(** [v.lower()]: only a [str] has the method. *)
Definition py_lower (v : json) : result string :=
  match v with
  | JStr s => Ok (lower s)
  | _ => Raise AttributeError
  end.

(** The values [for m in v] goes through: the items of a list, the keys
    of a dict, the characters of a string; nothing else can be iterated. *)
Definition py_iter (v : json) : result (list json) :=
  match v with
  | JArr l => Ok l
  | JObj d => Ok (map (fun kv => JStr (fst kv)) (map_to_list d))
  | JStr s => Ok (map (fun c => JStr (String c EmptyString))
                    (list_ascii_of_string s))
  | _ => Raise TypeError
  end.

(** [v[key]] for a string key: the value under the key of a dict, a
    [KeyError] when the dict has no such key, a [TypeError] for
    anything but a dict. *)
Definition py_getitem (v : json) (key : string) : result json :=
  match v with
  | JObj d => match d !! key with
              | Some x => Ok x
              | None => Raise KeyError
              end
  | _ => Raise TypeError
  end.

(** [[f(m) for m in l]]: the results in order, or the first exception. *)
Fixpoint comprehension {A B} (f : A -> result B) (l : list A)
  : result (list B) :=
  match l with
  | [] => Ok []
  | m :: l' =>
      match f m with
      | Ok y =>
          match comprehension f l' with
          | Ok ys => Ok (y :: ys)
          | Raise e => Raise e
          end
      | Raise e => Raise e
      end
  end.

(** [any(p(m) for m in l)]: stops at the first true value. *)
Fixpoint py_any {A} (p : A -> result bool) (l : list A) : result bool :=
  match l with
  | [] => Ok false
  | m :: l' =>
      match p m with
      | Ok b => if b then Ok true else py_any p l'
      | Raise e => Raise e
      end
  end.

End PyMore.

(* ===================================================================== *)
(** ** The health checks, [run_demo] as a whole and the entry point *)
(* ===================================================================== *)

Module Preflight.
Import Demo PyMore.

Definition RASA_URL : string := "http://localhost:5005/webhooks/rest/webhook".
Definition OLLAMA_URL : string := "http://localhost:11434".

(** What an HTTP response to a [GET] offers: [resp.status] and the outcome
    of [await resp.json()]. *)
Record get_response : Type := {
  get_status : Z;
  get_json : result json;
}.

(** Lines it prints outside the rounds.  The last two hold the text of
    an exception and are written [f"[red]...: {e}[/red]"]. *)
Inductive run_line : Type :=
| CouldNotImport
| CheckingOllama
| OllamaReady
| CheckingAsr
| AsrReady
| CheckingRasa
| RasaReady
| InitializingNeuTTS
| NeuTTSReady
| NeuTTSInitFailed (e : exn)
| FatalError (e : exn).

(** What [from services.neutts_service import ...] (line 51) comes to:
    the names are there, the import fails with an [ImportError], or the
    imported module raises something else. *)
Inductive import_outcome : Type :=
| Imported
| ImportFailed
| ImportRaised (e : exn).

(** The collaborators of [run_demo] besides those of the conversation.
    [print_line] is the console's answer to a line that holds the text of
    an exception a collaborator raised, as [console_print] is for the
    lines of the conversation. *)
Record probes (W : Type) : Type := {
  http_get : string -> Z -> W -> result get_response * W;
  tts_init : W -> result unit * W;
  tts_import : W -> import_outcome * W;
  print_line : run_line -> W -> result unit * W;
}.
Arguments http_get {W}. Arguments tts_init {W}.
Arguments tts_import {W}. Arguments print_line {W}.

(** Texts [run_demo] shows in the status footer outside the rounds. *)
Inductive run_status : Type :=
| RunningChecks
| OllamaUnavailable
| AsrNotRunning
| RasaNotRunning
| LoadingNeuTTS
| TtsFailed (e : exn)
| AudioNotFound
| AllSystemsReady
| DemoComplete.

(** The events of a whole run: those of the conversation, and the rest. *)
Inductive run_event : Type :=
| Core (ev : event)
| EvHttpGet (url : string) (total : Z)   (* session.get(url, timeout=total) *)
| EvTtsImport                            (* from services.neutts_service ... *)
| EvTtsInit                              (* NeuTTSService(NeuTTSConfig(...)) *)
| EvShow (s : run_status)                (* layout["status"].update(...) *)
| EvPrint (l : run_line)                 (* console.print(...) *)
| EvAsyncSleep (seconds : Z).            (* await asyncio.sleep(seconds) *)

(** [models = [m['name'] for m in data.get('models', [])]] and
    [any('ministral' in m.lower() for m in models)] (lines 82-84). *)
Definition has_ministral (data : json) : result bool :=
  found ← py_get data "models" (JArr []);
  items ← py_iter found;
  models ← comprehension (fun m => py_getitem m "name") items;
  py_any (fun m => lowered ← py_lower m; Ok (contains "ministral" lowered))
    models.

Section Run.

Context {W : Type} (sv : services W) (pr : probes W).

Definition run_state : Type := W * list run_event.

Definition PM (A : Type) : Type := run_state -> result A * run_state.

#[global] Instance PM_ret : MRet PM := fun A a s => (Ok a, s).

#[global] Instance PM_bind : MBind PM := fun A B k m s =>
  match m s with
  | (Ok a, s') => k a s'
  | (Raise e, s') => (Raise e, s')
  end.

Definition pcall {A} (ev : run_event) (f : W -> result A * W) : PM A :=
  fun '(w, tr) => let '(r, w') := f w in (r, (w', tr ++ [ev])).

Definition pemit (ev : run_event) : PM unit :=
  fun '(w, tr) => (Ok tt, (w, tr ++ [ev])).

Definition plift {A} (r : result A) : PM A := fun s => (r, s).

Definition ptry {A} (body : PM A) (handler : exn -> PM A) : PM A :=
  fun s =>
    match body s with
    | (Ok a, s') => (Ok a, s')
    | (Raise e, s') => handler e s'
    end.

(** What [console.print] does with the line [line e] (see
    [print_outcome]). *)
Definition pprint_outcome (line : exn -> run_line) (e : exn)
  : W -> result unit * W :=
  fun w => if plain e then (Ok tt, w) else print_line pr (line e) w.

Definition pprint_error (line : exn -> run_line) (e : exn) : PM unit :=
  pcall (EvPrint (line e)) (pprint_outcome line e).

(** A computation of the conversation inside a whole run: its events are
    added to the trace of the run. *)
Definition core {A} (m : M A) : PM A :=
  fun '(w, tr) =>
    let '(r, (w', evs)) := m (w, []) in (r, (w', tr ++ map Core evs)).

(** [check_ollama_connection] (lines 75-88) *)
Definition check_ollama_connection : PM bool :=
  ptry
    (resp ← pcall (EvHttpGet (OLLAMA_URL ++ "/api/tags") 5)
              (http_get pr (OLLAMA_URL ++ "/api/tags") 5);
     if get_status resp =? 200
     then data ← plift (get_json resp); plift (has_ministral data)
     else mret false)
    (fun _ => mret false).

(** [check_asr_connection] (lines 90-97) *)
Definition check_asr_connection : M bool :=
  try_except
    (with_connection sv 2 (_ ← call EvWsClose (ws_close sv); mret true))
    (fun _ => mret false).

(** [check_rasa_connection] (lines 99-107) *)
Definition check_rasa_connection : PM bool :=
  let url := (remove_all "/webhooks/rest/webhook" RASA_URL ++ "/")%string in
  ptry
    (resp ← pcall (EvHttpGet url 5) (http_get pr url 5);
     mret (get_status resp =? 200))
    (fun _ => mret false).

(** What [run_demo] does on a failed check: the status, the pause, the
    return. *)
Definition stop_with (s : run_status) : PM unit :=
  _ ← pemit (EvShow s); pemit (EvAsyncSleep 5).

(** [run_demo] (lines 179-397) *)
Definition run_demo : PM unit :=
  (* Pre-flight checks *)
  _ ← pemit (EvShow RunningChecks);
  _ ← pemit (EvPrint CheckingOllama);
  ollama ← check_ollama_connection;
  if negb ollama then stop_with OllamaUnavailable
  else
    _ ← pemit (EvPrint OllamaReady);
    _ ← pemit (EvPrint CheckingAsr);
    asr ← core check_asr_connection;
    if negb asr then stop_with AsrNotRunning
    else
      _ ← pemit (EvPrint AsrReady);
      _ ← pemit (EvPrint CheckingRasa);
      rasa ← check_rasa_connection;
      if negb rasa then stop_with RasaNotRunning
      else
        _ ← pemit (EvPrint RasaReady);
        (* Initialize TTS *)
        _ ← pemit (EvPrint InitializingNeuTTS);
        _ ← pemit (EvShow LoadingNeuTTS);
        loaded ← ptry
                   (_ ← pcall EvTtsInit (tts_init pr);
                    _ ← pemit (EvPrint NeuTTSReady);
                    mret true)
                   (fun e =>
                      _ ← pprint_error NeuTTSInitFailed e;
                      _ ← stop_with (TtsFailed e);
                      mret false);
        if negb loaded then mret tt
        else
          (* Check audio files *)
          present ← core (ask (EvPathExists AUDIO_DIR)
                            (path_exists sv AUDIO_DIR));
          if negb present then stop_with AudioNotFound
          else
            (* Main conversation loop *)
            _ ← pemit (EvShow AllSystemsReady);
            _ ← pemit (EvAsyncSleep 1);
            _ ← core (run_demo_loop sv CONVERSATION_STEPS []);
            _ ← pemit (EvShow DemoComplete);
            pemit (EvAsyncSleep 10).

(** The entry point (lines 399-408): the status the block ends with.  A
    run that returns leaves the status at 0; after a run that raised, the
    line is printed first and what the console raises leaves the block. *)
Definition main : PM Z :=
  ptry (_ ← run_demo; mret 0)
    (fun e => _ ← pprint_error FatalError e; mret 1).

(** The module from its import of the engine on (lines 48-54 and
    399-408): [sys.exit(1)] when the import fails, else the entry
    point. *)
Definition program : PM Z :=
  fun '(w, tr) =>
    let '(outcome, w') := tts_import pr w in
    match outcome with
    | Imported => main (w', tr ++ [EvTtsImport])
    | ImportFailed =>
        (Ok 1, (w', tr ++ [EvTtsImport; EvPrint CouldNotImport]))
    | ImportRaised e => (Raise e, (w', tr ++ [EvTtsImport]))
    end.


End Run.

End Preflight.

(* ===================================================================== *)
(** ** Scripted probes, for concrete runs *)
(* ===================================================================== *)

Module Stub_probes.
Import Demo PyMore Preflight Stub.

(** What the model server and the dialogue server answer to a [GET], and
    whether the engine loads. *)
Record probe_script : Type := {
  tags : result get_response;
  root : result get_response;
  engine_loads : result unit;
}.

Definition run_line_text (line : run_line) : string :=
  match line with
  | NeuTTSInitFailed e | FatalError e => exn_text e
  | _ => ""
  end.

Definition probing (ps : probe_script) : probes unit := {|
  http_get url _ _ :=
    (if String.eqb url (OLLAMA_URL ++ "/api/tags") then tags ps else root ps,
     tt);
  tts_init _ := (engine_loads ps, tt);
  tts_import _ := (Imported, tt);
  print_line line _ :=
    (if has_closing_tag (run_line_text line) then Raise MarkupError
     else Ok tt,
     tt);
|}.

Definition named (name : string) : json :=
  JObj {[ "name"%string := JStr name ]}.

(** The tag list of a model server that holds two models. *)
Definition two_models : json :=
  JObj {[ "models"%string :=
            JArr [named "llama3:8b"; named "Ministral-3:14B"] ]}.

(** The same list with an entry that has no name put in front. *)
Definition nameless_first : json :=
  JObj {[ "models"%string :=
            JArr [JObj ∅; named "Ministral-3:14B"] ]}.

Definition answers (status : Z) (body : json) : result get_response :=
  Ok {| get_status := status; get_json := Ok body |}.

(** Every probe answers well. *)
Definition healthy : probe_script := {|
  tags := answers 200 two_models;
  root := answers 200 (JStr "Hello from Rasa");
  engine_loads := Ok tt;
|}.

(** The model server holds no Ministral model. *)
Definition no_ministral : probe_script := {|
  tags := answers 200 (JObj {[ "models"%string := JArr [named "llama3:8b"] ]});
  root := root healthy;
  engine_loads := Ok tt;
|}.

(** The dialogue server is down. *)
Definition rasa_down : probe_script := {|
  tags := tags healthy;
  root := Raise ConnectionRefusedError;
  engine_loads := Ok tt;
|}.

(** A world in which the audio directory exists. *)
Definition with_directory (sc : script) : script := {|
  files p := if String.eqb p AUDIO_DIR then Some stereo_16k else files sc p;
  asr_up := asr_up sc;
  asr_answer := asr_answer sc;
  dialogue := dialogue sc;
  engine := engine sc;
|}.

(** The reply of the transcription service holds a number for a text. *)
Definition numeric : script := {|
  files := files studio;
  asr_up := true;
  asr_answer := JObj {[ "text"%string := JNum 42 ]};
  dialogue := dialogue studio;
  engine := engine studio;
|}.

(** The reply of the transcription service holds blanks only. *)
Definition blank : script := {|
  files := files studio;
  asr_up := true;
  asr_answer := JObj {[ "text"%string := JStr "   " ]};
  dialogue := dialogue studio;
  engine := engine studio;
|}.

(** The dialogue service answers 503. *)
Definition overloaded : script := {|
  files := files studio;
  asr_up := true;
  asr_answer := asr_answer studio;
  dialogue := Ok {| status := 503;
                    json_body := Raise (OtherException "JSONDecodeError") |};
  engine := engine studio;
|}.

(** An engine that yields one mu-law byte for every text. *)
Definition one_byte (text : json) : chunk_stream :=
  {| chunks := [[xff]]; failure := None |}.

Definition terse : script := {|
  files := files studio;
  asr_up := true;
  asr_answer := asr_answer studio;
  dialogue := dialogue studio;
  engine := one_byte;
|}.

(** The services of a script, but for a player that raises on every
    recording. *)
Definition broken_speaker (sc : script) : services unit := {|
  path_exists := path_exists (world sc);
  play_file _ _ := (Raise RuntimeError, tt);
  ws_connect := ws_connect (world sc);
  ws_close := ws_close (world sc);
  wave_read := wave_read (world sc);
  ws_send := ws_send (world sc);
  ws_recv := ws_recv (world sc);
  rasa_post := rasa_post (world sc);
  tts_synthesize := tts_synthesize (world sc);
  play_segment := play_segment (world sc);
  json_dumps := json_dumps (world sc);
  json_loads := json_loads (world sc);
  console_print := console_print (world sc);
|}.

(** The services of a script, but for a player that raises on every
    synthesised reply. *)
Definition broken_player (sc : script) : services unit := {|
  path_exists := path_exists (world sc);
  play_file := play_file (world sc);
  ws_connect := ws_connect (world sc);
  ws_close := ws_close (world sc);
  wave_read := wave_read (world sc);
  ws_send := ws_send (world sc);
  ws_recv := ws_recv (world sc);
  rasa_post := rasa_post (world sc);
  tts_synthesize := tts_synthesize (world sc);
  play_segment _ _ := (Raise RuntimeError, tt);
  json_dumps := json_dumps (world sc);
  json_loads := json_loads (world sc);
  console_print := console_print (world sc);
|}.

(** Five mono samples of 16 bits at 11025 Hz. *)
Definition voice_memo : wav := {|
  frames := map byte_of_Z [0; 16; 0; 32; 255; 127; 1; 128; 52; 18];
  width := 2;
  rate := 11025;
  n_channels := 1;
|}.

Definition run_start : @run_state unit := (tt, []).

Definition three_replies : list reply :=
  [which_account; image_only; checking_or_savings].

End Stub_probes.

(* ===================================================================== *)
(** ** Observations on a whole run *)
(* ===================================================================== *)

Module Watch_run.
Import Demo Preflight.




(** A computation of the conversation that adds to the trace without
    looking at it: from any trace it does what it does from the empty
    one.  This is what lets [core] run it on a trace of its own. *)
Definition framed {W A : Type} (m : @M W A) : Prop :=
  forall w tr,
    m (w, tr) = (let '(r, (w', evs)) := m (w, []) in (r, (w', tr ++ evs))).

End Watch_run.

(* ===================================================================== *)
(** ** Proof tactics for the monad *)
(* ===================================================================== *)

(** Unfolds the monad so that the next collaborator call shows. *)
Ltac run :=
  cbv [Demo.local_asr_transcribe Demo.local_asr_session
       Demo.with_connection Demo.closing
       Demo.neutts_synthesize Demo.neutts_session Demo.rasa_thinking
       Demo.update_chat_view Demo.try_except Demo.call Demo.ask Demo.emit
       Demo.print_error Demo.py_loads
       Demo.lift mbind mret Demo.M_bind Demo.M_ret];
  cbn beta iota zeta.

(** Closes a goal up to the bracketing of the trace. *)
Ltac trace_done := rewrite <- ?app_assoc; reflexivity.

(** Answers the call that shows with a fact about the world. *)
Ltac answer H := rewrite H; cbn beta iota zeta delta [negb].

(* ===================================================================== *)
(** ** Facts about the [audioop] functions *)
(* ===================================================================== *)

Module audioop_facts.
Import audioop.

Lemma length_put_unsigned (size : nat) (val : Z) :
  length (put_unsigned size val) = size.
Proof.
  revert val; induction size as [|k IH]; intros val; simpl;
    [reflexivity | now rewrite IH].
Qed.

Lemma length_SETSAMPLE32 (size val : Z) :
  length (SETSAMPLE32 size val) = Z.to_nat size.
Proof. apply length_put_unsigned. Qed.

Lemma length_SETRAWSAMPLE (size val : Z) :
  length (SETRAWSAMPLE size val) = Z.to_nat size.
Proof. apply length_put_unsigned. Qed.

Lemma length_indices (n : Z) : length (indices n) = Z.to_nat n.
Proof. unfold indices. now rewrite length_map, length_seq. Qed.

Lemma check_size_ok (size : Z) :
  1 <= size <= 4 -> check_size size = Ok tt.
Proof.
  intros H. unfold check_size.
  destruct (size <? 1) eqn:E1; [lia|].
  destruct (4 <? size) eqn:E2; [lia|]. reflexivity.
Qed.

Lemma check_parameters_ok (length size : Z) :
  1 <= size <= 4 -> length mod size = 0 ->
  check_parameters length size = Ok tt.
Proof.
  intros Hs Hm. unfold check_parameters.
  rewrite check_size_ok by assumption. simpl.
  rewrite Hm. reflexivity.
Qed.

(** [ulaw2lin] writes [width] bytes for every mu-law byte. *)
Lemma ulaw2lin_length (fragment : bytes) (width : Z) :
  1 <= width <= 4 ->
  exists pcm, ulaw2lin fragment width = Ok pcm
              /\ len pcm = len fragment * width.
Proof.
  intros Hw. unfold ulaw2lin. rewrite check_size_ok by assumption.
  eexists; split; [reflexivity|].
  unfold len.
  rewrite (flat_map_constant_length (c := Z.to_nat width)).
  - lia.
  - intros b _. apply length_SETSAMPLE32.
Qed.

(** [lin2ulaw] writes one byte for every sample. *)
Lemma lin2ulaw_length (fragment : bytes) (width : Z) :
  1 <= width <= 4 -> len fragment mod width = 0 ->
  exists ulaw, lin2ulaw fragment width = Ok ulaw
               /\ len ulaw = len fragment / width.
Proof.
  intros Hw Hm. unfold lin2ulaw.
  rewrite check_parameters_ok by assumption.
  eexists; split; [reflexivity|].
  unfold len at 1. rewrite length_map, length_indices.
  apply Z2Nat.id. apply Z.div_pos; unfold len; lia.
Qed.

(** [tomono] halves a fragment of whole stereo frames. *)
Lemma tomono_length (fragment : bytes) (width : Z) (lfactor rfactor : Q) :
  1 <= width <= 4 -> len fragment mod (width * 2) = 0 ->
  exists mono, tomono fragment width lfactor rfactor = Ok mono
               /\ len mono = len fragment / 2.
Proof.
  intros Hw Hm. unfold tomono.
  assert (Hq : len fragment = width * 2 * (len fragment / (width * 2))).
  { apply Z.div_exact; lia. }
  set (n := len fragment / (width * 2)) in *.
  assert (Hn : 0 <= n).
  { apply Z.div_pos; unfold len; lia. }
  rewrite check_parameters_ok; [simpl | assumption | ].
  2:{ rewrite Hq, <- Z.mul_assoc, Z.mul_comm. apply Z_mod_mult. }
  replace (len fragment / width) with (2 * n).
  2:{ rewrite Hq. replace (width * 2 * n) with (2 * n * width) by ring.
      rewrite Z_div_mult; lia. }
  rewrite Z.odd_mul. simpl.
  eexists; split; [reflexivity|].
  unfold len at 1.
  rewrite (flat_map_constant_length (c := Z.to_nat width)).
  - rewrite length_indices. rewrite Hq.
    replace (width * 2 * n) with (n * width * 2) by ring.
    rewrite Z_div_mult by lia. lia.
  - intros k _. apply length_SETRAWSAMPLE.
Qed.

(** The decoding table [_st_ulaw2linear16] of [audioop.c], entry by
    entry. *)
Example st_ulaw2linear16_table :
  map st_ulaw2linear16 (indices 256) =
    [-32124; -31100; -30076; -29052; -28028; -27004; -25980; -24956;
     -23932; -22908; -21884; -20860; -19836; -18812; -17788; -16764;
     -15996; -15484; -14972; -14460; -13948; -13436; -12924; -12412;
     -11900; -11388; -10876; -10364; -9852; -9340; -8828; -8316;
     -7932; -7676; -7420; -7164; -6908; -6652; -6396; -6140;
     -5884; -5628; -5372; -5116; -4860; -4604; -4348; -4092;
     -3900; -3772; -3644; -3516; -3388; -3260; -3132; -3004;
     -2876; -2748; -2620; -2492; -2364; -2236; -2108; -1980;
     -1884; -1820; -1756; -1692; -1628; -1564; -1500; -1436;
     -1372; -1308; -1244; -1180; -1116; -1052; -988; -924;
     -876; -844; -812; -780; -748; -716; -684; -652;
     -620; -588; -556; -524; -492; -460; -428; -396;
     -372; -356; -340; -324; -308; -292; -276; -260;
     -244; -228; -212; -196; -180; -164; -148; -132;
     -120; -112; -104; -96; -88; -80; -72; -64;
     -56; -48; -40; -32; -24; -16; -8; 0;
     32124; 31100; 30076; 29052; 28028; 27004; 25980; 24956;
     23932; 22908; 21884; 20860; 19836; 18812; 17788; 16764;
     15996; 15484; 14972; 14460; 13948; 13436; 12924; 12412;
     11900; 11388; 10876; 10364; 9852; 9340; 8828; 8316;
     7932; 7676; 7420; 7164; 6908; 6652; 6396; 6140;
     5884; 5628; 5372; 5116; 4860; 4604; 4348; 4092;
     3900; 3772; 3644; 3516; 3388; 3260; 3132; 3004;
     2876; 2748; 2620; 2492; 2364; 2236; 2108; 1980;
     1884; 1820; 1756; 1692; 1628; 1564; 1500; 1436;
     1372; 1308; 1244; 1180; 1116; 1052; 988; 924;
     876; 844; 812; 780; 748; 716; 684; 652;
     620; 588; 556; 524; 492; 460; 428; 396;
     372; 356; 340; 324; 308; 292; 276; 260;
     244; 228; 212; 196; 180; 164; 148; 132;
     120; 112; 104; 96; 88; 80; 72; 64;
     56; 48; 40; 32; 24; 16; 8; 0].
Proof. vm_compute. reflexivity. Qed.

(** Values of the four functions, as CPython 3.11 returns them for the
    same arguments. *)
Example tomono_values :
  tomono (map byte_of_Z [0; 16; 0; 32; 255; 127; 1; 128; 0; 128; 0; 128; 255; 127; 255; 127]) 2 (1 # 2) (1 # 2)
  = Ok (map byte_of_Z [0; 24; 0; 0; 0; 128; 255; 127]).
Proof. vm_compute. reflexivity. Qed.

Example ratecv_values :
  ratecv (map byte_of_Z [0; 16; 0; 32; 0; 48]) 2 8000 16000
  = Ok (map byte_of_Z [0; 16; 0; 24; 0; 32; 0; 40; 0; 48],
        (-1, (536870912, 805306368)))
  /\ ratecv (map byte_of_Z [0; 16; 0; 32; 0; 48; 0; 64; 0; 80; 0; 96; 0; 112])
       2 44100 8000
     = Ok (map byte_of_Z [0; 16; 51; 104],
           (-402, (1610612736, 1879048192))).
Proof. split; vm_compute; reflexivity. Qed.

Example lin2ulaw_values :
  lin2ulaw
    (map byte_of_Z [0; 0; 1; 0; 255; 255; 4; 0; 252; 255;
                    132; 0; 232; 3; 24; 252; 255; 127; 0; 128]) 2
  = Ok (map byte_of_Z [255; 255; 126; 254; 126; 239; 206; 78; 128; 0])
  /\ lin2ulaw (map byte_of_Z [1; 2; 3; 255; 255; 255; 0; 0; 128]) 3
     = Ok (map byte_of_Z [211; 126; 0]).
Proof. split; vm_compute; reflexivity. Qed.

Example ulaw2lin_values :
  ulaw2lin (map byte_of_Z [0; 127; 128; 255; 167]) 2
  = Ok (map byte_of_Z [132; 130; 0; 0; 124; 125; 0; 0; 252; 23]).
Proof. vm_compute. reflexivity. Qed.

End audioop_facts.

Module ratecv_facts.
Import audioop audioop_facts.

Lemma ratecv_emit_done width inrate outrate prev_i cur_i d :
  d < 0 -> ratecv_emit width inrate outrate prev_i cur_i d = ([], d).
Proof.
  intros Hd. rewrite ratecv_emit_equation_1.
  destruct (Z_lt_dec d 0); [reflexivity | lia].
Qed.

Lemma ratecv_emit_round width inrate outrate prev_i cur_i d :
  0 <= d ->
  ratecv_emit width inrate outrate prev_i cur_i d =
  let cur_o := Z.quot (prev_i * d + cur_i * (outrate - d)) outrate in
  let '(ncp, d') :=
    ratecv_emit width inrate outrate prev_i cur_i (d - Z.pos inrate) in
  (SETSAMPLE32 width cur_o ++ ncp, d').
Proof.
  intros Hd. rewrite ratecv_emit_equation_1 at 1.
  destruct (Z_lt_dec d 0); [lia | reflexivity].
Qed.

Lemma ratecv_loop_cons width inrate outrate s samples d prev_i cur_i :
  ratecv_loop width inrate outrate (s :: samples) d prev_i cur_i =
  let '(ncp, d') := ratecv_emit width inrate outrate cur_i s (d + outrate) in
  let '(ncp', st) := ratecv_loop width inrate outrate samples d' cur_i s in
  (ncp ++ ncp', st).
Proof. reflexivity. Qed.

(** Halving the rate: from [d = -1] every odd-numbered sample read
    produces one output sample, from [d = -2] every even-numbered one. *)
Lemma ratecv_loop_half (width : Z) (samples : list Z) :
  0 <= width ->
  forall prev_i cur_i,
    len (fst (ratecv_loop width 2 1 samples (-1) prev_i cur_i))
    = width * ((len samples + 1) / 2)
    /\ len (fst (ratecv_loop width 2 1 samples (-2) prev_i cur_i))
       = width * (len samples / 2).
Proof.
  intros Hw. induction samples as [|s samples IH]; intros prev_i cur_i.
  - assert (E1 : (len (@nil Z) + 1) / 2 = 0) by reflexivity.
    assert (E2 : len (@nil Z) / 2 = 0) by reflexivity.
    rewrite E1, E2. simpl. unfold len. simpl. lia.
  - assert (Hl : len (s :: samples) = len samples + 1)
      by (unfold len; simpl; lia).
    assert (Hn : 0 <= len samples) by (unfold len; lia).
    rewrite Hl. split; rewrite ratecv_loop_cons.
    + change (-1 + 1) with 0.
      rewrite ratecv_emit_round by lia.
      change (0 - Z.pos 2) with (-2).
      rewrite ratecv_emit_done by lia. cbv zeta.
      destruct (IH cur_i s) as [_ IH2].
      destruct (ratecv_loop width 2 1 samples (-2) cur_i s) as [ncp st].
      simpl in *. unfold len in *.
      rewrite !length_app, length_SETSAMPLE32. simpl.
      replace (Z.of_nat (length samples) + 1 + 1)
        with (Z.of_nat (length samples) + 1 * 2) by ring.
      rewrite Z_div_plus by lia. lia.
    + change (-2 + 1) with (-1).
      rewrite ratecv_emit_done by lia.
      destruct (IH cur_i s) as [IH1 _].
      destruct (ratecv_loop width 2 1 samples (-1) cur_i s) as [ncp st].
      simpl in *. exact IH1.
Qed.

(** From 16000 Hz to 8000 Hz [ratecv] writes one sample for every two it
    reads, and one more for an odd sample left over. *)
Lemma ratecv_16k_length (fragment : bytes) (width : Z) :
  1 <= width <= 4 -> len fragment mod width = 0 ->
  exists out st,
    ratecv fragment width 16000 8000 = Ok (out, st)
    /\ len out = width * ((len fragment / width + 1) / 2).
Proof.
  intros Hw Hm. unfold ratecv.
  change ((16000 <? - INT_MAX - 1) || (INT_MAX <? 16000)) with false.
  cbv iota. rewrite check_size_ok by assumption. simpl mbind.
  cbv beta iota. rewrite Z.mul_1_r, Hm. simpl negb. cbv iota.
  change ((16000 <=? 0) || (8000 <=? 0)) with false. cbv iota zeta.
  change (Z.gcd 16000 8000) with 8000.
  change (16000 / 8000) with 2. change (8000 / 8000) with 1.
  change (Z.to_pos 2) with 2%positive. change (- (1)) with (-1).
  set (samples := map _ _).
  destruct (ratecv_loop_half width samples ltac:(lia) 0 0) as [H _].
  destruct (ratecv_loop width 2 1 samples (-1) 0 0) as [out st] eqn:E.
  exists out, st. split; [rewrite <- E; reflexivity|].
  simpl in H. rewrite H. f_equal. f_equal. f_equal.
  unfold samples, len. rewrite length_map, length_indices.
  apply Z2Nat.id. apply Z.div_pos; unfold len; lia.
Qed.

End ratecv_facts.

(* ===================================================================== *)
(** ** The adapters and the driver *)
(* ===================================================================== *)

Module Demo_facts.
Import Demo.

Lemma extend_all_from (chunks : list bytes) (ulaw_data : bytes) :
  fold_left (fun ulaw_data chunk => ulaw_data ++ chunk) chunks ulaw_data
  = ulaw_data ++ concat chunks.
Proof.
  revert ulaw_data; induction chunks as [|c chunks IH]; intros acc; simpl.
  - now rewrite app_nil_r.
  - now rewrite IH, app_assoc.
Qed.

(** The accumulator holds the chunks end to end, in arrival order. *)
Lemma extend_all_concat (chunks : list bytes) :
  extend_all chunks = concat chunks.
Proof. unfold extend_all. now rewrite extend_all_from. Qed.

Section Facts.

Context {W : Type} (sv : services W).

(** What [neutts_synthesize] does with a generator that ends by itself. *)
Lemma neutts_synthesize_completed text w tr stream w' :
  tts_synthesize sv text w = (stream, w') ->
  failure stream = None ->
  exists pcm,
    audioop.ulaw2lin (concat (chunks stream)) 2 = Ok pcm
    /\ neutts_synthesize sv text (w, tr)
       = (Ok pcm, (w', tr ++ [EvSynthesize text])).
Proof.
  intros Hs Hf. run. answer Hs. rewrite Hf.
  rewrite extend_all_concat.
  destruct (concat (chunks stream)) as [|b ulaw] eqn:E.
  - exists []. split; reflexivity.
  - eexists. split; reflexivity.
Qed.

(** What it does with a generator that raises: the error line is
    printed, and the buffer is empty unless the console raises. *)
Lemma neutts_synthesize_failed text w tr stream w' e :
  tts_synthesize sv text w = (stream, w') ->
  failure stream = Some e ->
  neutts_synthesize sv text (w, tr)
  = (let '(printed, w'') := print_outcome sv TtsError e w' in
     (match printed with Ok _ => Ok [] | Raise e' => Raise e' end,
      (w'', tr ++ [EvSynthesize text; EvLog (TtsError e)]))).
Proof.
  intros Hs Hf. run. answer Hs. rewrite Hf.
  destruct (print_outcome sv TtsError e w') as [[[]|e'] w''];
    trace_done.
Qed.

(** The handler of [local_asr_transcribe] prints the error line for
    every exception of the session, and returns the empty transcript
    unless the console raises. *)
Lemma local_asr_transcribe_caught audio_path s e w' tr' :
  local_asr_session sv audio_path s = (Raise e, (w', tr')) ->
  local_asr_transcribe sv audio_path s
  = (let '(printed, w'') := print_outcome sv AsrError e w' in
     (match printed with Ok _ => Ok ""%string | Raise e' => Raise e' end,
      (w'', tr' ++ [EvLog (AsrError e)]))).
Proof.
  intros H. unfold local_asr_transcribe, try_except. rewrite H.
  cbv [print_error call mbind mret M_bind M_ret].
  destruct (print_outcome sv AsrError e w') as [[[]|e'] w''];
    reflexivity.
Qed.

(** The line of a [plain] exception is printed. *)
Lemma print_outcome_plain (line : exn -> log_line) (e : exn) (w : W) :
  plain e = true -> print_outcome sv line e w = (Ok tt, w).
Proof. intros H. unfold print_outcome. now rewrite H. Qed.

Lemma run_demo_loop_cons step steps full_history s :
  run_demo_loop sv (step :: steps) full_history s
  = match run_demo_step sv step full_history s with
    | (Ok full_history', s') => run_demo_loop sv steps full_history' s'
    | (Raise e, s') => (Raise e, s')
    end.
Proof. reflexivity. Qed.

End Facts.

End Demo_facts.

(* ===================================================================== *)
(** ** The transcription adapter *)
(* ===================================================================== *)

Module Transcribe.
Import Demo Demo_facts Observe.

Section Adapter.

Context {W : Type} (sv : services W).

(** C1.  Reading a WAV file, [local_asr_transcribe] mixes the frames to
    mono if the file has two channels, then resamples them to 8000 Hz if
    the file's rate differs from 8000, then encodes them as mu-law.  Where
    every call succeeds it sends the mu-law bytes as one binary message,
    then the serialised request [{"action": "transcribe"}], receives
    exactly one message, and returns the stripped [text] field of the
    parsed reply, or the empty string when the reply has no such field; the
    trace shows these calls and no other. *)
Theorem local_asr_transcribe_pipeline
  (audio_path : path) (tr : list event) (w0 w1 w2 w3 w4 w5 w6 : W)
  (wv : wav) (mono resampled mulaw : bytes) (st : Z * (Z * Z))
  (response : message) (data : gmap string json) (text : option string) :
  ws_connect sv w0 = (Ok tt, w1) ->
  wave_read sv audio_path w1 = (Ok wv, w2) ->
  (n_channels wv = 2 ->
   audioop.tomono (frames wv) (width wv) (1 # 2) (1 # 2) = Ok mono) ->
  (n_channels wv <> 2 -> mono = frames wv) ->
  (rate wv <> 8000 ->
   audioop.ratecv mono (width wv) (rate wv) 8000 = Ok (resampled, st)) ->
  (rate wv = 8000 -> resampled = mono) ->
  audioop.lin2ulaw resampled (width wv) = Ok mulaw ->
  ws_send sv (Binary mulaw) w2 = (Ok tt, w3) ->
  ws_send sv (Text (json_dumps sv (JObj {[ "action"%string := JStr "transcribe" ]})))
    w3 = (Ok tt, w4) ->
  ws_recv sv w4 = (Ok response, w5) ->
  json_loads sv response = Some (JObj data) ->
  data !! "text"%string = JStr <$> text ->
  ws_close sv w5 = (Ok tt, w6) ->
  local_asr_transcribe sv audio_path (w0, tr)
  = (Ok (match text with Some s => strip s | None => ""%string end),
     (w6, tr ++ [EvWsConnect 5;
                 EvWaveRead audio_path;
                 EvWsSend (Binary mulaw);
                 EvWsSend (Text (json_dumps sv
                                   (JObj {[ "action"%string := JStr "transcribe" ]})));
                 EvWsRecv;
                 EvWsClose])).
Proof.
  intros Hconnect Hread Hstereo Hmono Hrate Hsame Hulaw Hsend1 Hsend2
    Hrecv Hloads Htext Hclose.
  assert (Htranscode : transcode wv = Ok mulaw).
  { unfold transcode, convert_to_mono, resample_to_8k.
    destruct (Z.eqb_spec (n_channels wv) 2) as [E2 | E2].
    - rewrite (Hstereo E2). simpl.
      destruct (Z.eqb_spec (rate wv) 8000) as [E8 | E8]; simpl.
      + now rewrite <- (Hsame E8).
      + now rewrite (Hrate E8).
    - rewrite <- (Hmono E2). simpl.
      destruct (Z.eqb_spec (rate wv) 8000) as [E8 | E8]; simpl.
      + now rewrite <- (Hsame E8).
      + now rewrite (Hrate E8). }
  run. answer Hconnect. answer Hread. rewrite Htranscode. cbn beta iota.
  answer Hsend1. unfold transcribe_request. answer Hsend2. answer Hrecv.
  rewrite Hloads. cbn beta iota. unfold py_get. rewrite Htext.
  answer Hclose.
  destruct text as [s|]; simpl; trace_done.
Qed.

(** A round of the conversation loop that gets the empty transcript
    ends there, with the history as it was and no request to the dialogue
    service, and the loop goes on with the next step. *)
Lemma run_demo_step_no_transcript
  (step : conversation_step) (steps : list conversation_step)
  (full_history : list panel) (w w1 w2 w3 : W) (tr tr3 : list event) :
  let audio_path := path_join AUDIO_DIR (file step) in
  path_exists sv audio_path w = (true, w1) ->
  play_file sv audio_path w1 = (Ok tt, w2) ->
  local_asr_transcribe sv audio_path
    (w2, tr ++ [EvPathExists audio_path;
                EvStatus (UserSpeaking (label step));
                EvPlayFile audio_path;
                EvStatus Transcribing])
  = (Ok ""%string, (w3, tr3)) ->
  let s' := (w3, tr3 ++ [EvLog (NoTranscript audio_path)]) in
  run_demo_step sv step full_history (w, tr) = (Ok full_history, s')
  /\ run_demo_loop sv (step :: steps) full_history (w, tr)
     = run_demo_loop sv steps full_history s'.
Proof.
  intros audio_path Hexists Hplay Hasr s'.
  assert (Hstep : run_demo_step sv step full_history (w, tr)
                  = (Ok full_history, s')).
  { unfold run_demo_step. fold audio_path.
    cbv [ask call emit mbind mret M_bind M_ret]. cbn beta iota zeta.
    answer Hexists. answer Hplay.
    rewrite <- !app_assoc. simpl app.
    rewrite Hasr. reflexivity. }
  split; [exact Hstep|].
  rewrite run_demo_loop_cons, Hstep. reflexivity.
Qed.

(** A round in which [local_asr_transcribe] raises is left by that
    exception, and so is the loop: the steps that follow are not run. *)
Lemma run_demo_loop_transcribe_raises
  (step : conversation_step) (steps : list conversation_step)
  (full_history : list panel) (w w1 w2 : W) (tr : list event)
  (e : exn) (s3 : state) :
  let audio_path := path_join AUDIO_DIR (file step) in
  path_exists sv audio_path w = (true, w1) ->
  play_file sv audio_path w1 = (Ok tt, w2) ->
  local_asr_transcribe sv audio_path
    (w2, tr ++ [EvPathExists audio_path;
                EvStatus (UserSpeaking (label step));
                EvPlayFile audio_path;
                EvStatus Transcribing])
  = (Raise e, s3) ->
  run_demo_loop sv (step :: steps) full_history (w, tr) = (Raise e, s3).
Proof.
  intros audio_path Hexists Hplay Hasr.
  rewrite run_demo_loop_cons. unfold run_demo_step. fold audio_path.
  cbv [ask call emit mbind mret M_bind M_ret]. cbn beta iota zeta.
  answer Hexists. answer Hplay.
  rewrite <- !app_assoc. simpl app.
  rewrite Hasr. reflexivity.
Qed.

End Adapter.

End Transcribe.

(* ===================================================================== *)
(** ** The transcoding stages *)
(* ===================================================================== *)

Module Transcode.
Import Demo Demo_facts Observe audioop_facts ratecv_facts.

(** C3.  For frames that are already at 8000 Hz the resampling stage
    returns the very bytes it was given, whatever they hold and whatever
    the sample width. *)
Theorem resample_to_8k_identity (frames : bytes) (width : Z) :
  resample_to_8k frames width 8000 = Ok frames.
Proof. reflexivity. Qed.

Lemma Qceiling_half_rate (n : Z) :
  Qceiling (inject_Z n / inject_Z 16000 * 8000) = (n + 1) / 2.
Proof.
  assert (E : (inject_Z n / inject_Z 16000 * 8000 == n # 2)%Q).
  { unfold Qeq, Qdiv, Qmult, Qinv, inject_Z. simpl. lia. }
  rewrite (Qceiling_comp _ _ E).
  unfold Qceiling, Qfloor, Qopp. simpl Qnum. simpl Qden.
  Z.div_mod_to_equations. lia.
Qed.

(** C7.  A 16 kHz stereo file of whole frames, with samples of one to four
    bytes, is transcoded to a mu-law byte string of exactly
    [ceil(duration_seconds * 8000)] bytes, one byte for each sample left
    after mixing to mono and resampling to 8000 Hz. *)
Theorem transcode_16k_stereo_length (w : wav) :
  rate w = 16000 ->
  n_channels w = 2 ->
  1 <= width w <= 4 ->
  len (frames w) mod (n_channels w * width w) = 0 ->
  exists mulaw,
    transcode w = Ok mulaw
    /\ len mulaw = Qceiling (duration_seconds w * 8000).
Proof.
  destruct w as [fr wd rt nc]. unfold duration_seconds, nframes. simpl.
  intros -> -> Hw Hm.
  assert (Hq : len fr = 2 * wd * (len fr / (2 * wd))).
  { apply Z.div_exact; lia. }
  set (n := len fr / (2 * wd)) in *.
  assert (Hn : 0 <= n) by (apply Z.div_pos; unfold len; lia).
  rewrite Qceiling_half_rate.
  unfold transcode, convert_to_mono, resample_to_8k. simpl.
  destruct (tomono_length fr wd (1 # 2) (1 # 2) Hw) as (mono & -> & Lmono).
  { rewrite Z.mul_comm. exact Hm. }
  assert (Lmono' : len mono = n * wd).
  { rewrite Lmono, Hq. replace (2 * wd * n) with (n * wd * 2) by ring.
    apply Z_div_mult. lia. }
  simpl.
  destruct (ratecv_16k_length mono wd Hw) as (out & st & -> & Lout).
  { rewrite Lmono'. apply Z_mod_mult. }
  rewrite Lmono', Z_div_mult in Lout by lia.
  simpl.
  destruct (lin2ulaw_length out wd Hw) as (mulaw & -> & Lulaw).
  { rewrite Lout, Z.mul_comm. apply Z_mod_mult. }
  exists mulaw. split; [reflexivity|].
  rewrite Lulaw, Lout, Z.mul_comm. apply Z_div_mult. lia.
Qed.

End Transcode.

(* ===================================================================== *)
(** ** The synthesis adapter *)
(* ===================================================================== *)

Module Synthesize.
Import Demo Demo_facts Observe audioop_facts.

Section Adapter.

Context {W : Type} (sv : services W).

(** C6.  When the generator ends by itself, the accumulator holds its
    chunks end to end in arrival order, and [neutts_synthesize] returns
    that buffer expanded by [ulaw2lin] to two bytes a sample.  Three
    chunks of 160 bytes make 480 bytes of mu-law and 960 bytes of PCM. *)
Theorem neutts_synthesize_concatenates
  (text : json) (w : W) (tr : list event) (stream : chunk_stream) (w' : W) :
  tts_synthesize sv text w = (stream, w') ->
  failure stream = None ->
  extend_all (chunks stream) = concat (chunks stream)
  /\ exists pcm,
      neutts_synthesize sv text (w, tr)
      = (Ok pcm, (w', tr ++ [EvSynthesize text]))
      /\ audioop.ulaw2lin (concat (chunks stream)) 2 = Ok pcm
      /\ len pcm = 2 * len (concat (chunks stream))
      /\ forall c1 c2 c3,
          chunks stream = [c1; c2; c3] ->
          len c1 = 160 -> len c2 = 160 -> len c3 = 160 ->
          len (concat (chunks stream)) = 480 /\ len pcm = 960.
Proof.
  intros Hs Hf. split; [apply extend_all_concat|].
  destruct (neutts_synthesize_completed sv text w tr stream w' Hs Hf)
    as (pcm & Hpcm & Hrun).
  exists pcm. split; [exact Hrun|]. split; [exact Hpcm|].
  destruct (ulaw2lin_length (concat (chunks stream)) 2 ltac:(lia))
    as (pcm' & Hpcm' & Hlen).
  assert (pcm' = pcm) as -> by congruence.
  split; [lia|].
  intros c1 c2 c3 Hc L1 L2 L3.
  assert (L : len (concat (chunks stream)) = 480).
  { rewrite Hc. unfold len in *. simpl.
    rewrite !length_app. simpl. lia. }
  split; [exact L | lia].
Qed.

End Adapter.

End Synthesize.

(* ===================================================================== *)
(** ** The conversation driver *)
(* ===================================================================== *)

Module Driver.
Import Demo Demo_facts Observe audioop_facts.

Lemma voice_app (tr1 tr2 : list event) :
  voice (tr1 ++ tr2) = voice tr1 ++ voice tr2.
Proof. apply List.filter_app. Qed.

Lemma playbacks_app (tr1 tr2 : list event) :
  playbacks (tr1 ++ tr2) = playbacks tr1 ++ playbacks tr2.
Proof. apply List.filter_app. Qed.

Lemma playbacks_voice (tr : list event) :
  playbacks (voice tr) = playbacks tr.
Proof.
  induction tr as [|ev tr IH]; [reflexivity|].
  destruct ev; simpl; rewrite ?IH; reflexivity.
Qed.

Section Loop.

Context {W : Type} (sv : services W).

(** One synthesis seen from the driver: from any trace it returns what
    it returns from the empty one, and its trace starts with the synthesis
    and shows nothing else of the voice. *)
Lemma neutts_synthesize_outcome text w tr :
  exists evs,
    neutts_synthesize sv text (w, tr)
    = (fst (synthesized sv text w),
       (snd (synthesized sv text w), tr ++ EvSynthesize text :: evs))
    /\ voice evs = [].
Proof.
  unfold synthesized. run.
  destruct (tts_synthesize sv text w) as [stream w'].
  cbn beta iota zeta.
  destruct (failure stream) as [e|].
  - destruct (print_outcome sv TtsError e w') as [[[]|e'] w''];
      exists [EvLog (TtsError e)];
      (split; [simpl; rewrite <- app_assoc; reflexivity | reflexivity]).
  - destruct (extend_all (chunks stream)) as [|b ulaw];
      [exists []; split; reflexivity|].
    destruct (audioop.ulaw2lin (b :: ulaw) 2) as [pcm|e]; cbn beta iota zeta;
      [exists []; split; reflexivity|].
    destruct (print_outcome sv TtsError e w') as [[[]|e'] w''];
      exists [EvLog (TtsError e)];
      (split; [simpl; rewrite <- app_assoc; reflexivity | reflexivity]).
Qed.

(** One reply with a text that is a string, whose synthesis returns, and
    whose buffer is played if it is not empty: the loop goes on with the
    next reply. *)
Lemma agent_speaking_cons
  (response : reply) (bot_responses : list reply) (text : string)
  (full_history : list panel) (w w1 w2 : W) (tr : list event)
  (pcm : bytes) :
  response !! "text"%string = Some (JStr text) ->
  synthesized sv (JStr text) w = (Ok pcm, w1) ->
  played sv pcm w1 = (Ok tt, w2) ->
  exists evs,
    agent_speaking sv (response :: bot_responses) full_history (w, tr)
    = agent_speaking sv bot_responses
        (full_history ++ [AgentPanel (JStr text)]) (w2, tr ++ evs)
    /\ voice evs = spoken (JStr text) pcm.
Proof.
  intros Htext Hsynth Hplay.
  simpl agent_speaking. rewrite Htext.
  cbv [update_chat_view lift py_text emit mbind mret M_bind M_ret].
  cbn beta iota zeta.
  set (shown := EvChatView _).
  destruct (neutts_synthesize_outcome (JStr text) w
              ((tr ++ [shown]) ++ [EvStatus NeuTTSSpeaking]))
    as (evs & Hrun & Hevs).
  rewrite Hrun, Hsynth. cbn [fst snd].
  unfold played in Hplay.
  destruct pcm as [|b pcm]; cbn [has_sound] in Hplay.
  - injection Hplay as <-.
    exists ([shown; EvStatus NeuTTSSpeaking; EvSynthesize (JStr text)]
              ++ evs).
    split; [f_equal; f_equal; rewrite <- !app_assoc; reflexivity|].
    rewrite voice_app, Hevs. reflexivity.
  - cbv [call]. cbn beta iota zeta. rewrite Hplay.
    exists ([shown; EvStatus NeuTTSSpeaking; EvSynthesize (JStr text)]
              ++ evs ++ [EvPlaySegment (b :: pcm)]).
    split; [f_equal; f_equal; rewrite <- !app_assoc; reflexivity|].
    rewrite voice_app, voice_app, Hevs. reflexivity.
Qed.

Lemma playbacks_spoken (text : json) (pcm : bytes) :
  playbacks (spoken text pcm)
  = if has_sound pcm then [EvPlaySegment pcm] else [].
Proof. destruct pcm; reflexivity. Qed.

(** C8, as the code has it.  Where every text of the replies is a
    string, every synthesis returns and playing a segment does not raise,
    the loop over the replies ends normally; the texts are spoken one
    after the other in the order of the replies, each buffer being the one
    [neutts_synthesize] returned for its text; the voice part of the trace
    is, for each text in that order, its synthesis followed by the
    playback of its buffer exactly when that buffer is not empty.  So the
    playbacks are those of the buffers that are not empty, in order, and
    there is exactly one for each reply with a text where every buffer
    holds sound. *)
Theorem agent_speaking_in_order (bot_responses : list reply) :
  Forall (fun text => exists s, text = JStr s) (reply_texts bot_responses) ->
  (forall text w, exists pcm w', synthesized sv text w = (Ok pcm, w')) ->
  (forall pcm w, exists w', play_segment sv pcm w = (Ok tt, w')) ->
  forall full_history w tr,
  exists pcms full_history' w' tr',
    agent_speaking sv bot_responses full_history (w, tr)
    = (Ok full_history', (w', tr ++ tr'))
    /\ replies_spoken sv (reply_texts bot_responses) w pcms w'
    /\ voice tr' = concat (zip_with spoken (reply_texts bot_responses) pcms)
    /\ playbacks tr' = map EvPlaySegment (List.filter has_sound pcms)
    /\ (Forall (fun pcm => pcm <> []) pcms ->
        playbacks tr' = map EvPlaySegment pcms).
Proof.
  intros Hstr Hsynth Hplay. unfold reply_texts in *.
  induction bot_responses as [|response rest IH]; intros full_history w tr.
  - exists [], full_history, w, []. simpl. rewrite app_nil_r.
    split; [reflexivity|]. split; [constructor|]. auto.
  - simpl omap in *.
    destruct (response !! "text"%string) as [agent_text|] eqn:Htext.
    2:{ simpl agent_speaking. rewrite Htext. apply IH, Hstr. }
    inversion Hstr as [|? ? [text ->] Hrest]; subst.
    destruct (Hsynth (JStr text) w) as (pcm & w1 & Hs).
    assert (Hp : exists w2, played sv pcm w1 = (Ok tt, w2)).
    { unfold played. destruct (has_sound pcm); [apply Hplay | eauto]. }
    destruct Hp as [w2 Hp].
    destruct (agent_speaking_cons response rest text full_history
                w w1 w2 tr pcm Htext Hs Hp) as (evs & Hgo & Hevs).
    destruct (IH Hrest (full_history ++ [AgentPanel (JStr text)]) w2
                (tr ++ evs))
      as (pcms & h' & w' & tr' & Hrun & Hrel & Hvoice & Hplays & _).
    exists (pcm :: pcms), h', w', (evs ++ tr').
    split; [rewrite Hgo, Hrun, <- app_assoc; reflexivity|].
    split; [econstructor; eassumption|].
    assert (Hv : voice (evs ++ tr')
                 = concat (zip_with spoken (JStr text :: omap
                     (fun response : reply => response !! "text"%string)
                     rest) (pcm :: pcms))).
    { rewrite voice_app, Hevs, Hvoice. reflexivity. }
    assert (Hall : playbacks (evs ++ tr')
                   = map EvPlaySegment (List.filter has_sound (pcm :: pcms))).
    { rewrite playbacks_app, <- (playbacks_voice evs), Hevs,
        playbacks_spoken, Hplays.
      simpl List.filter. destruct (has_sound pcm); reflexivity. }
    split; [exact Hv|]. split; [exact Hall|].
    intros Hne. rewrite Hall. f_equal.
    clear -Hne. induction Hne as [|p ps Hp _ IHps]; [reflexivity|].
    simpl. destruct p; [contradiction|]. simpl. now rewrite IHps.
Qed.

(** C9.  A reply without a [text] field leaves no mark: the loop over the
    replies goes on with the next reply from the same history, the same
    world and the same trace, so nothing is shown, synthesised or played
    for it. *)
Theorem agent_speaking_skips_reply_without_text
  (response : reply) (bot_responses : list reply)
  (full_history : list panel) (s : state) :
  response !! "text"%string = None ->
  agent_speaking sv (response :: bot_responses) full_history s
  = agent_speaking sv bot_responses full_history s.
Proof. intros H. simpl. rewrite H. reflexivity. Qed.

(** C10.  When the input file of a step does not exist, the round does
    nothing but look for the file and print that it is missing: it plays
    nothing, opens no connection to the transcription service and sends
    nothing to the dialogue service, keeps the history, and the loop goes
    on with the next step. *)
Theorem run_demo_step_missing_file
  (step : conversation_step) (steps : list conversation_step)
  (full_history : list panel) (w : W) (tr : list event) (w' : W) :
  let audio_path := path_join AUDIO_DIR (file step) in
  path_exists sv audio_path w = (false, w') ->
  let s' := (w', tr ++ [EvPathExists audio_path;
                        EvLog (MissingFile audio_path)]) in
  run_demo_step sv step full_history (w, tr) = (Ok full_history, s')
  /\ run_demo_loop sv (step :: steps) full_history (w, tr)
     = run_demo_loop sv steps full_history s'.
Proof.
  intros audio_path Hexists s'.
  assert (Hstep : run_demo_step sv step full_history (w, tr)
                  = (Ok full_history, s')).
  { unfold run_demo_step. fold audio_path.
    cbv [ask emit mbind mret M_bind M_ret]. cbn beta iota zeta.
    answer Hexists. unfold s'. trace_done. }
  split; [exact Hstep|].
  rewrite run_demo_loop_cons, Hstep. reflexivity.
Qed.

End Loop.

End Driver.

(* ===================================================================== *)
(** ** Concrete runs *)
(* ===================================================================== *)

Module Runs.
Import Demo Observe Stub.

(** With every service up, the three stereo frames of the first input go
    out as two mu-law bytes and the reply comes back stripped. *)
Lemma transcribe_in_the_studio :
  local_asr_transcribe (world studio) first_input start
  = (Ok "I want to transfer money."%string,
     (tt, [EvWsConnect 5;
           EvWaveRead first_input;
           EvWsSend (Binary (map byte_of_Z [167; 255]));
           EvWsSend request;
           EvWsRecv;
           EvWsClose])).
Proof.
  apply (Transcribe.local_asr_transcribe_pipeline (world studio)
           first_input [] tt tt tt tt tt tt tt stereo_16k
           (map byte_of_Z [0; 24; 0; 0; 0; 0])
           (map byte_of_Z [0; 24; 0; 0])
           (map byte_of_Z [167; 255])
           (-2, (0, 0))
           (Text "reply")
           {[ "text"%string := JStr " I want to transfer money. " ]}
           (Some " I want to transfer money. "%string)).
  - reflexivity.
  - reflexivity.
  - intros _. vm_compute. reflexivity.
  - intros H. now contradiction H.
  - intros _. vm_compute. reflexivity.
  - intros H. discriminate H.
  - vm_compute. reflexivity.
  - reflexivity.
  - reflexivity.
  - reflexivity.
  - reflexivity.
  - vm_compute. reflexivity.
  - reflexivity.
Defined.

(** C2 at a failing input.  A file of two frames of three channels does
    not make the stage under "Convert to mono" fail: the stage only asks
    whether there are two channels, so the six samples pass it unchanged,
    as if they were six frames of one channel.  They are encoded as six
    mu-law bytes and sent, and the transcript comes back.  At 16 kHz the
    resampler, which is always told one channel, keeps every second of the
    six samples, across the channels. *)
Lemma three_channels_are_transcoded :
  n_channels three_channels = 3
  /\ convert_to_mono (frames three_channels) (width three_channels)
       (n_channels three_channels) = Ok (frames three_channels)
  /\ transcode three_channels
     = Ok (map byte_of_Z [175; 159; 128; 0; 173; 45])
  /\ transcode {| frames := frames three_channels; width := 2;
                  rate := 16000; n_channels := 3 |}
     = Ok (map byte_of_Z [175; 128; 173])
  /\ local_asr_transcribe (world surround) first_input start
     = (Ok "I want to transfer money."%string,
        (tt, [EvWsConnect 5;
              EvWaveRead first_input;
              EvWsSend (Binary (map byte_of_Z [175; 159; 128; 0; 173; 45]));
              EvWsSend request;
              EvWsRecv;
              EvWsClose])).
Proof. repeat split; vm_compute; reflexivity. Qed.

(** With the transcription service down the error line holds no tag and
    is printed: the transcript is empty and the first round of the loop
    ends after it, before any dialogue request. *)
Example refused_connection_skips_the_step :
  local_asr_transcribe (world unreachable) first_input start
  = (Ok ""%string,
     (tt, [EvWsConnect 5; EvLog (AsrError ConnectionRefusedError)]))
  /\ run_demo_step (world unreachable) first_step [] start
     = (Ok [],
        (tt, [EvPathExists first_input;
              EvStatus (UserSpeaking "Transfer Request");
              EvPlayFile first_input;
              EvStatus Transcribing;
              EvWsConnect 5;
              EvLog (AsrError ConnectionRefusedError);
              EvLog (NoTranscript first_input)])).
Proof. split; vm_compute; reflexivity. Qed.

(** A silent engine gives the empty buffer, and so does an engine that
    raises with a text the console prints. *)
Example silent_and_broken_engines :
  neutts_synthesize (world mute) (JStr "Which account?") start
  = (Ok [], (tt, [EvSynthesize (JStr "Which account?")]))
  /\ neutts_synthesize (world faulty) (JStr "Which account?") start
     = (Ok [], (tt, [EvSynthesize (JStr "Which account?");
                     EvLog (TtsError RuntimeError)])).
Proof. split; vm_compute; reflexivity. Qed.

(** C4 at a failing input.  The transcription server hangs up with the
    close reason [[/oops]] instead of replying.  The receive raises, the
    connection is closed, and the handler prints the error line; the
    console takes the reason for a closing tag and raises.  So
    [local_asr_transcribe] raises instead of returning the empty
    transcript, the exception leaves the conversation loop, and the
    second step is never looked at. *)
Lemma closing_tag_ends_the_run :
  local_asr_transcribe (hung_up studio) first_input start
  = (Raise MarkupError,
     (tt, [EvWsConnect 5;
           EvWaveRead first_input;
           EvWsSend (Binary (map byte_of_Z [167; 255]));
           EvWsSend request;
           EvWsRecv;
           EvWsClose;
           EvLog (AsrError ConnectionClosedError)]))
  /\ run_demo_loop (hung_up studio) [first_step; second_step] [] start
     = (Raise MarkupError,
        (tt, [EvPathExists first_input;
              EvStatus (UserSpeaking "Transfer Request");
              EvPlayFile first_input;
              EvStatus Transcribing;
              EvWsConnect 5;
              EvWaveRead first_input;
              EvWsSend (Binary (map byte_of_Z [167; 255]));
              EvWsSend request;
              EvWsRecv;
              EvWsClose;
              EvLog (AsrError ConnectionClosedError)])).
Proof. split; vm_compute; reflexivity. Qed.

(** C5 at a failing input.  The engine raises after its first chunk with
    a text that holds [[/INST]].  The handler prints the error line, the
    console takes the token for a closing tag and raises: the exception
    leaves [neutts_synthesize], which returns no buffer, and then the
    loop over the replies. *)
Lemma closing_tag_in_engine_error :
  neutts_synthesize (world garbled) (JStr "Which account?") start
  = (Raise MarkupError,
     (tt, [EvSynthesize (JStr "Which account?");
           EvLog (TtsError UnexpectedToken)]))
  /\ agent_speaking (world garbled) [which_account; checking_or_savings]
       [] start
     = (Raise MarkupError,
        (tt, [EvChatView [AgentPanel (JStr "Which account?")];
              EvStatus NeuTTSSpeaking;
              EvSynthesize (JStr "Which account?");
              EvLog (TtsError UnexpectedToken)])).
Proof. split; vm_compute; reflexivity. Qed.

(** Three chunks of 160 bytes come back as 960 bytes of PCM. *)
Lemma three_chunks_of_160 :
  exists pcm,
    neutts_synthesize (world studio) (JStr "Which account?") start
    = (Ok pcm, (tt, [EvSynthesize (JStr "Which account?")]))
    /\ len (concat (chunks (three_chunks (JStr "Which account?")))) = 480
    /\ len pcm = 960.
Proof.
  destruct (Synthesize.neutts_synthesize_concatenates (world studio)
              (JStr "Which account?") tt []
              (three_chunks (JStr "Which account?")) tt
              eq_refl eq_refl)
    as (_ & pcm & Hrun & _ & _ & Hthree).
  exists pcm. split; [exact Hrun|].
  apply (Hthree (repeat x00 160) (repeat x7f 160) (repeat xff 160));
    reflexivity.
Defined.

(** Three stereo frames at 16 kHz last 3/16000 s and give
    ceil(3/2) = 2 mu-law bytes. *)
Lemma three_frames_give_two_bytes :
  exists mulaw,
    transcode stereo_16k = Ok mulaw
    /\ len mulaw = Qceiling (duration_seconds stereo_16k * 8000)
    /\ Qceiling (duration_seconds stereo_16k * 8000) = 2.
Proof.
  destruct (Transcode.transcode_16k_stereo_length stereo_16k)
    as (mulaw & Hrun & Hlen); try reflexivity.
  - simpl. lia.
  - exists mulaw. split; [exact Hrun | split; [exact Hlen | reflexivity]].
Defined.

(** Two replies with a text, an engine that yields sound: two playbacks,
    in the order of the replies. *)
Lemma two_replies_two_playbacks :
  exists pcm1 pcm2 full_history' tr',
    agent_speaking (world studio) [which_account; checking_or_savings]
      [] start
    = (Ok full_history', (tt, tr'))
    /\ synthesized (world studio) (JStr "Which account?") tt
       = (Ok pcm1, tt)
    /\ synthesized (world studio) (JStr "Checking or savings?") tt
       = (Ok pcm2, tt)
    /\ voice tr' = [EvSynthesize (JStr "Which account?");
                    EvPlaySegment pcm1;
                    EvSynthesize (JStr "Checking or savings?");
                    EvPlaySegment pcm2]
    /\ playbacks tr' = [EvPlaySegment pcm1; EvPlaySegment pcm2].
Proof.
  destruct (Driver.agent_speaking_in_order (world studio)
              [which_account; checking_or_savings])
    with (full_history := @nil panel) (w := tt) (tr := @nil event)
    as (pcms & h' & w' & tr' & Hrun & Hrel & Hvoice & Hplays & Hsound).
  - repeat constructor; eexists; reflexivity.
  - intros text []. eexists _, tt. reflexivity.
  - intros pcm []. exists tt. reflexivity.
  - inversion Hrel as [|? ? pcm1 pcms1 ? [] [] ? Hs1 _ Hrel1]; subst.
    inversion Hrel1 as [|? ? pcm2 pcms2 ? [] [] ? Hs2 _ Hrel2]; subst.
    inversion Hrel2; subst.
    assert (Hne1 : pcm1 <> []).
    { intros ->. vm_compute in Hs1. discriminate Hs1. }
    assert (Hne2 : pcm2 <> []).
    { intros ->. vm_compute in Hs2. discriminate Hs2. }
    exists pcm1, pcm2, h', tr'.
    split; [exact Hrun|]. split; [exact Hs1|]. split; [exact Hs2|].
    split.
    + rewrite Hvoice. destruct pcm1; [contradiction|].
      destruct pcm2; [contradiction|]. reflexivity.
    + apply Hsound. repeat constructor; assumption.
Defined.

(** The same two replies with a silent engine: both texts are
    synthesised, nothing is played. *)
Lemma two_replies_no_playback :
  reply_texts [which_account; checking_or_savings]
  = [JStr "Which account?"; JStr "Checking or savings?"]
  /\ voice (snd (snd (agent_speaking (world mute)
                        [which_account; checking_or_savings] [] start)))
     = [EvSynthesize (JStr "Which account?");
        EvSynthesize (JStr "Checking or savings?")]
  /\ playbacks (snd (snd (agent_speaking (world mute)
                            [which_account; checking_or_savings] [] start)))
     = [].
Proof. repeat split; vm_compute; reflexivity. Qed.

(** A reply that holds an image only is passed over. *)
Lemma image_reply_is_passed_over :
  agent_speaking (world studio) [image_only; which_account] [] start
  = agent_speaking (world studio) [which_account] [] start.
Proof.
  apply (Driver.agent_speaking_skips_reply_without_text (world studio)
           image_only [which_account] [] start).
  reflexivity.
Defined.

(** The second input file is missing in the studio: the round looks for
    it, reports it, and the loop goes on. *)
Lemma second_step_is_skipped :
  run_demo_step (world studio) second_step [] start
  = (Ok [],
     (tt, [EvPathExists (path_join AUDIO_DIR "user_input_2.wav");
           EvLog (MissingFile (path_join AUDIO_DIR "user_input_2.wav"))]))
  /\ run_demo_loop (world studio) [second_step; first_step] [] start
     = run_demo_loop (world studio) [first_step] []
         (tt, [EvPathExists (path_join AUDIO_DIR "user_input_2.wav");
               EvLog (MissingFile (path_join AUDIO_DIR "user_input_2.wav"))]).
Proof.
  apply (Driver.run_demo_step_missing_file (world studio)
           second_step [first_step] [] tt [] tt).
  reflexivity.
Defined.

End Runs.

(* ===================================================================== *)
(** ** Further properties of the driver *)
(* ===================================================================== *)

Module Dashboard.
Import Demo Demo_facts Observe.

Section History.

Context {W : Type} (sv : services W).

(** X1.  The chat view shows the latest panels of the history, at most
    [MAX_VISIBLE_BUBBLES] of them, and the whole history while it is that
    short. *)
Theorem update_chat_view_window
  (full_history : list panel) (w : W) (tr : list event) :
  exists visible,
    update_chat_view full_history (w, tr)
    = (Ok tt, (w, tr ++ [EvChatView visible]))
    /\ length visible = Nat.min (length full_history) MAX_VISIBLE_BUBBLES
    /\ (exists older, full_history = older ++ visible)
    /\ (length full_history <= MAX_VISIBLE_BUBBLES -> visible = full_history)%nat.
Proof.
  eexists. split; [reflexivity|]. split; [|split].
  - rewrite length_skipn. lia.
  - exists (firstn (length full_history - MAX_VISIBLE_BUBBLES) full_history).
    symmetry. apply firstn_skipn.
  - intros H.
    replace (length full_history - MAX_VISIBLE_BUBBLES)%nat with 0%nat by lia.
    reflexivity.
Qed.

(** X2.  Whenever the loop over the replies comes to its end, the history has
    gained one agent panel for each reply that has a text, in the order of
    the replies, whether or not the synthesis of that text gave sound. *)
Theorem agent_speaking_history
  (bot_responses : list reply) (full_history full_history' : list panel)
  (s s' : state) :
  agent_speaking sv bot_responses full_history s = (Ok full_history', s') ->
  full_history'
  = full_history ++ map AgentPanel (reply_texts bot_responses).
Proof.
  unfold reply_texts.
  revert full_history s.
  induction bot_responses as [|response rest IH]; intros full_history s.
  - simpl. intros [= <- _]. now rewrite app_nil_r.
  - simpl agent_speaking. simpl omap.
    destruct (response !! "text"%string) as [agent_text|]; [|apply IH].
    destruct s as [w tr].
    cbv [update_chat_view lift py_text emit mbind mret M_bind M_ret].
    destruct agent_text as [| | |text| |]; cbn beta iota zeta;
      try discriminate.
    destruct (neutts_synthesize sv (JStr text) _) as [[pcm | e] [w1 tr1]];
      [|discriminate].
    destruct pcm as [|b pcm].
    + intros H. apply IH in H. rewrite H, <- app_assoc. reflexivity.
    + cbv [call]. cbn beta iota zeta.
      destruct (play_segment sv (b :: pcm) w1) as [[[]|e] w2];
        [|discriminate].
      intros H. apply IH in H. rewrite H, <- app_assoc. reflexivity.
Qed.

End History.

End Dashboard.

(* ===================================================================== *)
(** ** Further properties of the transcription adapter *)
(* ===================================================================== *)

Module Strip_facts.
Import Watch.

Lemma lstrip_first (s : string) :
  match first_char (lstrip s) with
  | Some c => is_whitespace c = false
  | None => True
  end.
Proof.
  induction s as [|c s IH]; simpl; [exact I|].
  destruct (is_whitespace c) eqn:E; [exact IH | simpl; exact E].
Qed.

Lemma rstrip_first (s : string) (c : ascii) :
  first_char s = Some c -> is_whitespace c = false ->
  first_char (rstrip s) = Some c.
Proof.
  destruct s as [|c' s]; simpl; [discriminate|].
  intros [= ->] E. destruct (rstrip s); [rewrite E|]; reflexivity.
Qed.

Lemma rstrip_last (s : string) :
  match last_char (rstrip s) with
  | Some c => is_whitespace c = false
  | None => True
  end.
Proof.
  induction s as [|c s IH]; simpl; [exact I|].
  destruct (rstrip s) as [|c' r] eqn:E.
  - destruct (is_whitespace c) eqn:Ec; simpl; [exact I | exact Ec].
  - exact IH.
Qed.

Lemma rstrip_all_whitespace (s : string) :
  all_whitespace s = true -> rstrip s = EmptyString.
Proof.
  induction s as [|c s IH]; simpl; [reflexivity|].
  intros [Hc Hs]%andb_prop. rewrite (IH Hs), Hc. reflexivity.
Qed.

Lemma lstrip_all_whitespace (s : string) :
  all_whitespace s = true -> lstrip s = EmptyString.
Proof.
  induction s as [|c s IH]; simpl; [reflexivity|].
  intros [Hc Hs]%andb_prop. rewrite Hc. exact (IH Hs).
Qed.

Lemma rstrip_empty (s : string) :
  rstrip s = EmptyString -> all_whitespace s = true.
Proof.
  induction s as [|c s IH]; simpl; [reflexivity|].
  destruct (rstrip s) as [|c' r]; [|discriminate].
  destruct (is_whitespace c); [intros _; now apply IH | discriminate].
Qed.

Lemma lstrip_suffix_whitespace (s : string) :
  all_whitespace (lstrip s) = true -> all_whitespace s = true.
Proof.
  induction s as [|c s IH]; simpl; [reflexivity|].
  destruct (is_whitespace c) eqn:E; simpl.
  - exact IH.
  - rewrite E. discriminate.
Qed.

(** [strip] returns the empty string exactly on strings of whitespace. *)
Lemma strip_empty_iff (s : string) :
  strip s = EmptyString <-> all_whitespace s = true.
Proof.
  unfold strip. split.
  - intros H. apply lstrip_suffix_whitespace, rstrip_empty, H.
  - intros H. now rewrite lstrip_all_whitespace.
Qed.

(** What [strip] returns neither starts nor ends with whitespace. *)
Lemma strip_clean (s : string) :
  match first_char (strip s) with
  | Some c => is_whitespace c = false
  | None => True
  end
  /\ match last_char (strip s) with
     | Some c => is_whitespace c = false
     | None => True
     end.
Proof.
  unfold strip. split; [|apply rstrip_last].
  pose proof (lstrip_first s) as H.
  destruct (first_char (lstrip s)) as [c|] eqn:E.
  - now rewrite (rstrip_first _ c E H).
  - destruct (lstrip s); [exact I | discriminate].
Qed.

End Strip_facts.

Module Socket.
Import Demo Demo_facts Observe Watch Strip_facts.

Section Session.

Context {W : Type} (sv : services W).

(** Ends a branch of the session: the close, then the error line if the
    branch raised, then the result. *)
Ltac close_and_finish :=
  destruct (ws_close sv _) as [[[]|?] ?]; cbn beta iota zeta;
  try match goal with
      | |- context [print_outcome sv AsrError ?e ?w] =>
          destruct (print_outcome sv AsrError e w) as [[[]|?] ?] eqn:?
      end;
  eexists _, _, _;
  (split; [trace_done|]);
  (split; [reflexivity|]);
  first [exact I | eexists _, _; split; [reflexivity | eassumption]].

(** X3.  Once the connection is open [local_asr_transcribe] closes it
    exactly once, on every way out: after the last read, send or receive
    it got to, and before it prints an error line.  It then returns a
    transcript, unless the console raises on that error line: this is the
    only exception that leaves it. *)
Theorem local_asr_transcribe_closes_connection
  (audio_path : path) (w w1 : W) (tr : list event) :
  ws_connect sv w = (Ok tt, w1) ->
  exists r w' evs,
    local_asr_transcribe sv audio_path (w, tr) = (r, (w', tr ++ evs))
    /\ opened_and_closed evs = true
    /\ match r with
       | Ok _ => True
       | Raise e' =>
           exists e w4,
             last evs = Some (EvLog (AsrError e))
             /\ print_outcome sv AsrError e w4 = (Raise e', w')
       end.
Proof.
  intros Hc. run. answer Hc.
  destruct (wave_read sv audio_path w1) as [[wv|e] w2]; cbn beta iota zeta;
    [|close_and_finish].
  destruct (transcode wv) as [mulaw_bytes|e]; cbn beta iota zeta;
    [|close_and_finish].
  destruct (ws_send sv (Binary mulaw_bytes) w2) as [[[]|e] w3];
    cbn beta iota zeta; [|close_and_finish].
  destruct (ws_send sv _ w3) as [[[]|e] w4]; cbn beta iota zeta;
    [|close_and_finish].
  destruct (ws_recv sv w4) as [[response|e] w5]; cbn beta iota zeta;
    [|close_and_finish].
  destruct (json_loads sv response) as [data|]; cbn beta iota zeta;
    [|close_and_finish].
  destruct (py_get data "text" (JStr "")) as [text|e]; cbn beta iota zeta;
    [|close_and_finish].
  destruct (py_strip text) as [transcript|e]; cbn beta iota zeta;
    close_and_finish.
Qed.

(** The session up to the reply, when every call succeeds: what is left
    is to parse the reply. *)
Lemma local_asr_session_received
  (audio_path : path) (tr : list event) (w0 w1 w2 w3 w4 w5 w6 : W)
  (wv : wav) (mulaw_bytes : bytes) (response : message) :
  ws_connect sv w0 = (Ok tt, w1) ->
  wave_read sv audio_path w1 = (Ok wv, w2) ->
  transcode wv = Ok mulaw_bytes ->
  ws_send sv (Binary mulaw_bytes) w2 = (Ok tt, w3) ->
  ws_send sv (Text (json_dumps sv transcribe_request)) w3 = (Ok tt, w4) ->
  ws_recv sv w4 = (Ok response, w5) ->
  ws_close sv w5 = (Ok tt, w6) ->
  local_asr_session sv audio_path (w0, tr)
  = (data ← py_loads sv response;
     text ← py_get data "text" (JStr "");
     py_strip text,
     (w6, tr ++ [EvWsConnect 5;
                 EvWaveRead audio_path;
                 EvWsSend (Binary mulaw_bytes);
                 EvWsSend (Text (json_dumps sv transcribe_request));
                 EvWsRecv;
                 EvWsClose])).
Proof.
  intros Hc Hr Ht Hs1 Hs2 Hv Hx.
  run. answer Hc. answer Hr. rewrite Ht. cbn beta iota.
  answer Hs1. answer Hs2. answer Hv.
  cbv [result_bind].
  destruct (json_loads sv response) as [data|]; cbn beta iota zeta.
  2:{ answer Hx. trace_done. }
  destruct (py_get data "text" (JStr "")) as [text|e]; cbn beta iota zeta.
  2:{ answer Hx. trace_done. }
  destruct (py_strip text) as [t|e]; cbn beta iota zeta;
    answer Hx; trace_done.
Qed.

(** Ends a branch in which the handler prints a [plain] exception. *)
Ltac logged e :=
  exists e; cbv [print_error print_outcome call mbind mret M_bind M_ret];
  cbn beta iota zeta delta [plain]; trace_done.

(** X4.  A reply that cannot be parsed, is not an object, or holds a [text]
    that is not a string gives the empty transcript: the connection is
    closed, the error is logged, nothing is raised. *)
Theorem local_asr_transcribe_unusable_reply
  (audio_path : path) (tr : list event) (w0 w1 w2 w3 w4 w5 w6 : W)
  (wv : wav) (mulaw_bytes : bytes) (response : message) :
  ws_connect sv w0 = (Ok tt, w1) ->
  wave_read sv audio_path w1 = (Ok wv, w2) ->
  transcode wv = Ok mulaw_bytes ->
  ws_send sv (Binary mulaw_bytes) w2 = (Ok tt, w3) ->
  ws_send sv (Text (json_dumps sv transcribe_request)) w3 = (Ok tt, w4) ->
  ws_recv sv w4 = (Ok response, w5) ->
  ws_close sv w5 = (Ok tt, w6) ->
  unusable_reply (json_loads sv response) ->
  exists e,
    local_asr_transcribe sv audio_path (w0, tr)
    = (Ok ""%string,
       (w6, tr ++ [EvWsConnect 5;
                   EvWaveRead audio_path;
                   EvWsSend (Binary mulaw_bytes);
                   EvWsSend (Text (json_dumps sv transcribe_request));
                   EvWsRecv;
                   EvWsClose;
                   EvLog (AsrError e)])).
Proof.
  intros Hc Hr Ht Hs1 Hs2 Hv Hx Hbad.
  unfold local_asr_transcribe, try_except.
  rewrite (local_asr_session_received _ _ _ _ _ _ _ _ _ _ _ _
             Hc Hr Ht Hs1 Hs2 Hv Hx).
  unfold py_loads.
  destruct (json_loads sv response) as [data|]; simpl in *.
  2:{ logged ValueError. }
  destruct data as [| | | |l|d]; simpl; try logged AttributeError.
  destruct Hbad as (v & -> & Hv'). simpl.
  destruct v as [| | |s| |]; simpl; try logged AttributeError.
  now contradiction (Hv' s).
Qed.

(** X5.  The transcript is the stripped [text] of the reply, so it is empty
    exactly when that text holds nothing but whitespace; no error is
    logged for such a reply. *)
Theorem local_asr_transcribe_blank_reply
  (audio_path : path) (tr : list event) (w0 w1 w2 w3 w4 w5 w6 : W)
  (wv : wav) (mulaw_bytes : bytes) (response : message)
  (data : gmap string json) (text : string) :
  ws_connect sv w0 = (Ok tt, w1) ->
  wave_read sv audio_path w1 = (Ok wv, w2) ->
  transcode wv = Ok mulaw_bytes ->
  ws_send sv (Binary mulaw_bytes) w2 = (Ok tt, w3) ->
  ws_send sv (Text (json_dumps sv transcribe_request)) w3 = (Ok tt, w4) ->
  ws_recv sv w4 = (Ok response, w5) ->
  ws_close sv w5 = (Ok tt, w6) ->
  json_loads sv response = Some (JObj data) ->
  data !! "text"%string = Some (JStr text) ->
  exists transcript,
    local_asr_transcribe sv audio_path (w0, tr)
    = (Ok transcript,
       (w6, tr ++ [EvWsConnect 5;
                   EvWaveRead audio_path;
                   EvWsSend (Binary mulaw_bytes);
                   EvWsSend (Text (json_dumps sv transcribe_request));
                   EvWsRecv;
                   EvWsClose]))
    /\ (transcript = ""%string <-> all_whitespace text = true).
Proof.
  intros Hc Hr Ht Hs1 Hs2 Hv Hx Hl Htext.
  exists (strip text). split; [|apply strip_empty_iff].
  unfold local_asr_transcribe, try_except.
  rewrite (local_asr_session_received _ _ _ _ _ _ _ _ _ _ _ _
             Hc Hr Ht Hs1 Hs2 Hv Hx).
  unfold py_loads. rewrite Hl. simpl. rewrite Htext. reflexivity.
Qed.

(** What the session returns has been stripped. *)
Lemma local_asr_session_stripped (audio_path : path) (s s' : state)
  (transcript : string) :
  local_asr_session sv audio_path s = (Ok transcript, s') ->
  exists text, transcript = strip text.
Proof.
  destruct s as [w tr]. run.
  destruct (ws_connect sv w) as [[[]|e] w1]; cbn beta iota zeta;
    [|discriminate].
  destruct (wave_read sv audio_path w1) as [[wv|e] w2]; cbn beta iota zeta.
  2:{ destruct (ws_close sv w2) as [[[]|?] ?]; discriminate. }
  destruct (transcode wv) as [mulaw_bytes|e]; cbn beta iota zeta.
  2:{ destruct (ws_close sv w2) as [[[]|?] ?]; discriminate. }
  destruct (ws_send sv (Binary mulaw_bytes) w2) as [[[]|e] w3];
    cbn beta iota zeta.
  2:{ destruct (ws_close sv w3) as [[[]|?] ?]; discriminate. }
  destruct (ws_send sv _ w3) as [[[]|e] w4]; cbn beta iota zeta.
  2:{ destruct (ws_close sv w4) as [[[]|?] ?]; discriminate. }
  destruct (ws_recv sv w4) as [[response|e] w5]; cbn beta iota zeta.
  2:{ destruct (ws_close sv w5) as [[[]|?] ?]; discriminate. }
  destruct (json_loads sv response) as [data|]; cbn beta iota zeta.
  2:{ destruct (ws_close sv w5) as [[[]|?] ?]; discriminate. }
  destruct (py_get data "text" (JStr "")) as [text|e]; cbn beta iota zeta.
  2:{ destruct (ws_close sv w5) as [[[]|?] ?]; discriminate. }
  destruct text as [| | |text| |]; simpl;
    try (destruct (ws_close sv w5) as [[[]|?] ?]; discriminate).
  destruct (ws_close sv w5) as [[[]|?] ?]; [|discriminate].
  intros [= <- _]. now exists text.
Qed.

(** X6.  Whatever the services answer, the transcript handed to the driver
    neither starts nor ends with whitespace. *)
Theorem local_asr_transcribe_clean
  (audio_path : path) (s s' : state) (transcript : string) :
  local_asr_transcribe sv audio_path s = (Ok transcript, s') ->
  match first_char transcript with
  | Some c => is_whitespace c = false
  | None => True
  end
  /\ match last_char transcript with
     | Some c => is_whitespace c = false
     | None => True
     end.
Proof.
  unfold local_asr_transcribe, try_except.
  destruct (local_asr_session sv audio_path s) as [[t|e] s1] eqn:E.
  - intros [= <- _].
    destruct (local_asr_session_stripped _ _ _ _ E) as [text ->].
    apply strip_clean.
  - destruct s1 as [w1 tr1].
    cbv [print_error call mbind mret M_bind M_ret].
    destruct (print_outcome sv AsrError e w1) as [[[]|e'] w2];
      [|discriminate].
    intros [= <- _]. split; exact I.
Qed.

End Session.

End Socket.

(* ===================================================================== *)
(** ** Further properties of the conversation loop *)
(* ===================================================================== *)

Module Rounds.
Import Demo Demo_facts Observe Watch audioop_facts.

Section Round.

Context {W : Type} (sv : services W).

(** X7.  When the dialogue service gives no replies (the request raises,
    the status is not 200, or the body is not JSON) the round ends there:
    the user's panel stays in the history, one line is printed, nothing is
    synthesised or played.  Where the console prints the line the loop
    goes on with the next step; where it raises on the line (which holds
    the text of the exception), that exception leaves the round and the
    loop. *)
Theorem run_demo_step_dialogue_failure
  (step : conversation_step) (steps : list conversation_step)
  (full_history : list panel) (tr tr3 : list event) (w w1 w2 w3 w4 w5 : W)
  (transcript : string) (outcome : result http_response) (line : log_line)
  (printed : result unit) :
  let audio_path := path_join AUDIO_DIR (file step) in
  path_exists sv audio_path w = (true, w1) ->
  play_file sv audio_path w1 = (Ok tt, w2) ->
  local_asr_transcribe sv audio_path
    (w2, tr ++ [EvPathExists audio_path;
                EvStatus (UserSpeaking (label step));
                EvPlayFile audio_path;
                EvStatus Transcribing])
  = (Ok transcript, (w3, tr3)) ->
  transcript <> ""%string ->
  rasa_post sv "demo-user" transcript w3 = (outcome, w4) ->
  dialogue_failure outcome = Some line ->
  line_printed sv line w4 = (printed, w5) ->
  let full_history' := full_history ++ [UserPanel transcript] in
  let s' := (w5, tr3 ++ [EvChatView (latest full_history');
                         EvStatus RasaThinking;
                         EvRasaPost "demo-user" transcript;
                         EvLog line]) in
  match printed with
  | Ok _ =>
      run_demo_step sv step full_history (w, tr) = (Ok full_history', s')
      /\ run_demo_loop sv (step :: steps) full_history (w, tr)
         = run_demo_loop sv steps full_history' s'
  | Raise e' =>
      run_demo_step sv step full_history (w, tr) = (Raise e', s')
      /\ run_demo_loop sv (step :: steps) full_history (w, tr)
         = (Raise e', s')
  end.
Proof.
  intros audio_path Hexists Hplay Hasr Hne Hpost Hfail Hprint
    full_history' s'.
  assert (Hstep : run_demo_step sv step full_history (w, tr)
                  = (match printed with
                     | Ok _ => Ok full_history'
                     | Raise e' => Raise e'
                     end, s')).
  { unfold run_demo_step. fold audio_path.
    cbv [ask call emit mbind mret M_bind M_ret]. cbn beta iota zeta.
    answer Hexists. answer Hplay.
    rewrite <- !app_assoc. simpl app.
    rewrite Hasr.
    destruct (String.eqb_spec transcript "") as [E|_]; [contradiction|].
    fold full_history'.
    run. answer Hpost. unfold s', latest.
    unfold dialogue_failure in Hfail.
    destruct outcome as [resp|e].
    - destruct (status resp =? 200) eqn:E200; simpl.
      + destruct (json_body resp) as [body|e]; [discriminate|].
        injection Hfail as <-. simpl in Hprint. simpl. rewrite Hprint.
        destruct printed as [[]|e']; trace_done.
      + injection Hfail as <-. simpl in Hprint.
        injection Hprint as <- <-. trace_done.
    - injection Hfail as <-. simpl in Hprint. rewrite Hprint.
      destruct printed as [[]|e']; trace_done. }
  destruct printed as [[]|e']; (split; [exact Hstep|]);
    rewrite run_demo_loop_cons, Hstep; reflexivity.
Qed.

(** X8.  Playing the user's recording is not guarded: when it raises, the
    exception leaves the loop at once, before any transcription, and the
    remaining steps are not run. *)
Theorem run_demo_loop_user_playback_raises
  (step : conversation_step) (steps : list conversation_step)
  (full_history : list panel) (tr : list event) (w w1 w2 : W) (e : exn) :
  let audio_path := path_join AUDIO_DIR (file step) in
  path_exists sv audio_path w = (true, w1) ->
  play_file sv audio_path w1 = (Raise e, w2) ->
  run_demo_loop sv (step :: steps) full_history (w, tr)
  = (Raise e, (w2, tr ++ [EvPathExists audio_path;
                          EvStatus (UserSpeaking (label step));
                          EvPlayFile audio_path])).
Proof.
  intros audio_path Hexists Hplay.
  rewrite run_demo_loop_cons. unfold run_demo_step. fold audio_path.
  cbv [ask call emit mbind mret M_bind M_ret]. cbn beta iota zeta.
  answer Hexists. answer Hplay. trace_done.
Qed.

(** X9.  Playing a synthesised reply is not guarded either: when it raises
    for a reply whose text is a string, the exception leaves the loop over
    the replies, and the replies that follow are neither shown nor
    spoken. *)
Theorem agent_speaking_playback_raises
  (response : reply) (bot_responses : list reply)
  (full_history : list panel) (tr tr1 : list event) (w w1 w2 : W)
  (text : string) (pcm_audio : bytes) (e : exn) :
  response !! "text"%string = Some (JStr text) ->
  neutts_synthesize sv (JStr text)
    (w, tr ++ [EvChatView (latest (full_history ++ [AgentPanel (JStr text)]));
               EvStatus NeuTTSSpeaking])
  = (Ok pcm_audio, (w1, tr1)) ->
  pcm_audio <> [] ->
  play_segment sv pcm_audio w1 = (Raise e, w2) ->
  agent_speaking sv (response :: bot_responses) full_history (w, tr)
  = (Raise e, (w2, tr1 ++ [EvPlaySegment pcm_audio])).
Proof.
  intros Htext Hsynth Hne Hplay.
  simpl agent_speaking. rewrite Htext.
  cbv [update_chat_view lift py_text emit mbind mret M_bind M_ret].
  cbn beta iota zeta. unfold latest in Hsynth.
  rewrite <- !app_assoc. simpl app. rewrite Hsynth.
  destruct pcm_audio as [|b pcm]; [contradiction|].
  cbv [call]. cbn beta iota zeta. rewrite Hplay. reflexivity.
Qed.

(** X10.  The buffer [neutts_synthesize] returns always holds whole 16-bit
    samples: its length is twice that of some mu-law byte string, which is
    empty when the engine raised and the engine's output otherwise. *)
Theorem neutts_synthesize_whole_samples
  (text : json) (w : W) (tr : list event) (pcm : bytes) (s' : state) :
  neutts_synthesize sv text (w, tr) = (Ok pcm, s') ->
  let stream := fst (tts_synthesize sv text w) in
  len pcm = 2 * len (match failure stream with
                     | Some _ => []
                     | None => concat (chunks stream)
                     end).
Proof.
  destruct (tts_synthesize sv text w) as [stream w'] eqn:Hs. simpl.
  destruct (failure stream) as [e|] eqn:Hf.
  - rewrite (neutts_synthesize_failed sv text w tr stream w' e Hs Hf).
    destruct (print_outcome sv TtsError e w') as [[[]|e'] w''];
      [|discriminate].
    intros [= <- _]. reflexivity.
  - destruct (neutts_synthesize_completed sv text w tr stream w' Hs Hf)
      as (pcm' & Hpcm & ->).
    intros [= <- _].
    destruct (ulaw2lin_length (concat (chunks stream)) 2 ltac:(lia))
      as (pcm'' & Hpcm'' & Hlen).
    assert (pcm'' = pcm') as -> by congruence. lia.
Qed.

End Round.

End Rounds.

(* ===================================================================== *)
(** ** Further properties of the transcoding stages *)
(* ===================================================================== *)

Module ratecv_count.
Import audioop audioop_facts ratecv_facts.

(** The inner loop entered with [d >= 0] stores [d / inrate + 1] samples
    and leaves [d] in [[-inrate, 0)]. *)
Lemma ratecv_emit_count (width : Z) (inrate : positive)
  (outrate prev_i cur_i : Z) :
  0 <= width ->
  forall d, 0 <= d ->
    len (fst (ratecv_emit width inrate outrate prev_i cur_i d))
    = width * (d / Z.pos inrate + 1)
    /\ snd (ratecv_emit width inrate outrate prev_i cur_i d)
       = d - (d / Z.pos inrate + 1) * Z.pos inrate.
Proof.
  intros Hw d Hd. pattern d. apply Wf_Z.Zlt_0_ind; [|exact Hd].
  clear d Hd. intros d IH Hd.
  rewrite ratecv_emit_round by exact Hd. cbv zeta.
  destruct (Z_lt_dec (d - Z.pos inrate) 0) as [Hlt | Hge].
  - rewrite ratecv_emit_done by exact Hlt. simpl.
    assert (E : d / Z.pos inrate = 0) by (apply Z.div_small; lia).
    rewrite E. unfold len. rewrite length_app, length_SETSAMPLE32.
    simpl. lia.
  - destruct (IH (d - Z.pos inrate) ltac:(lia)) as [IH1 IH2].
    destruct (ratecv_emit width inrate outrate prev_i cur_i
                (d - Z.pos inrate)) as [ncp d'].
    simpl in *.
    assert (E : (d - Z.pos inrate) / Z.pos inrate = d / Z.pos inrate - 1).
    { replace (d - Z.pos inrate) with (d + (-1) * Z.pos inrate) by ring.
      rewrite Z_div_plus_full by lia. ring. }
    rewrite E in IH1, IH2. split.
    + unfold len in *. rewrite length_app, length_SETSAMPLE32.
      rewrite Nat2Z.inj_add, IH1. rewrite Z2Nat.id by lia. ring.
    + rewrite IH2. ring.
Qed.

(** The outer loop entered with [d < 0]: it stores
    [(d + n * outrate) / inrate + 1] samples for [n] samples read, or none
    while [d + n * outrate] stays negative. *)
Lemma ratecv_loop_count (width : Z) (inrate : positive) (outrate : Z)
  (samples : list Z) :
  0 <= width -> 0 < outrate ->
  forall d prev_i cur_i, d < 0 ->
    len (fst (ratecv_loop width inrate outrate samples d prev_i cur_i))
    = width * Z.max 0 ((d + len samples * outrate) / Z.pos inrate + 1).
Proof.
  intros Hw Ho.
  induction samples as [|s samples IH]; intros d prev_i cur_i Hd.
  - simpl. change (len (@nil Z)) with 0. rewrite Z.mul_0_l, Z.add_0_r.
    assert (d / Z.pos inrate < 0) by (apply Z.div_lt_upper_bound; lia).
    change (len (@nil byte)) with 0. lia.
  - assert (Hl : len (s :: samples) = len samples + 1)
      by (unfold len; simpl; lia).
    assert (Hn : 0 <= len samples) by (unfold len; lia).
    rewrite Hl, ratecv_loop_cons.
    destruct (Z_lt_dec (d + outrate) 0) as [Hlt | Hge].
    + rewrite ratecv_emit_done by exact Hlt.
      specialize (IH (d + outrate) cur_i s Hlt).
      destruct (ratecv_loop width inrate outrate samples (d + outrate)
                  cur_i s) as [ncp st].
      simpl in *. rewrite IH.
      replace (d + (len samples + 1) * outrate)
        with (d + outrate + len samples * outrate) by ring.
      reflexivity.
    + destruct (ratecv_emit_count width inrate outrate cur_i s Hw
                  (d + outrate) ltac:(lia)) as [E1 E2].
      destruct (ratecv_emit width inrate outrate cur_i s (d + outrate))
        as [ncp d'].
      simpl in E1, E2.
      set (e := (d + outrate) / Z.pos inrate + 1) in *.
      assert (He : 0 <= (d + outrate) / Z.pos inrate)
        by (apply Z.div_pos; lia).
      assert (Hd' : - Z.pos inrate <= d' < 0).
      { pose proof (Z.mod_pos_bound (d + outrate) (Z.pos inrate)
                      ltac:(lia)) as Hm.
        pose proof (Z.div_mod (d + outrate) (Z.pos inrate) ltac:(lia)).
        subst d' e. nia. }
      specialize (IH d' cur_i s ltac:(lia)).
      destruct (ratecv_loop width inrate outrate samples d' cur_i s)
        as [ncp' st].
      simpl in *. unfold len in *. rewrite length_app, Nat2Z.inj_add.
      rewrite E1, IH.
      assert (Hq : (d' + Z.of_nat (length samples) * outrate) / Z.pos inrate
                   = (d + (Z.of_nat (length samples) + 1) * outrate)
                       / Z.pos inrate - e).
      { subst d'.
        replace (d + outrate - e * Z.pos inrate
                 + Z.of_nat (length samples) * outrate)
          with (d + (Z.of_nat (length samples) + 1) * outrate
                + (- e) * Z.pos inrate) by ring.
        rewrite Z_div_plus_full by lia. ring. }
      rewrite Hq.
      assert (Hbig : (d + outrate) / Z.pos inrate
                     <= (d + (Z.of_nat (length samples) + 1) * outrate)
                          / Z.pos inrate).
      { apply Z.div_le_mono; nia. }
      rewrite !Z.max_r by lia. subst e. ring.
Qed.

(** [ratecv] accepts a fragment of whole samples with a width from 1 to 4
    and an input rate that is positive and fits a C int; for [n] samples
    read it writes [(n - 1) * outrate / inrate + 1] samples, and none for
    an empty fragment. *)
Lemma ratecv_length (fragment : bytes) (width inrate outrate : Z) :
  1 <= width <= 4 -> len fragment mod width = 0 ->
  0 < inrate <= INT_MAX -> 0 < outrate ->
  exists out st,
    ratecv fragment width inrate outrate = Ok (out, st)
    /\ len out
       = width * Z.max 0 ((len fragment / width - 1) * outrate / inrate + 1).
Proof.
  intros Hw Hm Hi Ho. unfold ratecv.
  assert (E1 : (inrate <? - INT_MAX - 1) || (INT_MAX <? inrate) = false).
  { unfold INT_MAX in *. apply orb_false_intro; lia. }
  rewrite E1. rewrite check_size_ok by assumption. simpl mbind.
  cbv beta iota. rewrite Z.mul_1_r, Hm. simpl negb. cbv iota.
  assert (E2 : (inrate <=? 0) || (outrate <=? 0) = false)
    by (apply orb_false_intro; lia).
  rewrite E2. cbv zeta.
  set (g := Z.gcd inrate outrate).
  assert (Hg : 0 < g).
  { pose proof (Z.gcd_nonneg inrate outrate).
    assert (g <> 0); [|fold g in H; lia].
    unfold g. intros E. apply Z.gcd_eq_0_l in E. lia. }
  destruct (Z.gcd_divide_l inrate outrate) as [i' Hi'].
  destruct (Z.gcd_divide_r inrate outrate) as [o' Ho'].
  fold g in Hi', Ho'.
  assert (Ei : inrate / g = i') by (rewrite Hi'; apply Z_div_mult; lia).
  assert (Eo : outrate / g = o') by (rewrite Ho'; apply Z_div_mult; lia).
  rewrite Ei, Eo.
  assert (Hi'pos : 0 < i') by nia.
  assert (Ho'pos : 0 < o') by nia.
  set (samples := map _ _).
  assert (Hlen : len samples = len fragment / width).
  { unfold samples, len. rewrite length_map, length_indices.
    apply Z2Nat.id. apply Z.div_pos; unfold len; lia. }
  pose proof (ratecv_loop_count width (Z.to_pos i') o' samples
                ltac:(lia) Ho'pos (- o') 0 0 ltac:(lia)) as H.
  rewrite Z2Pos.id in H by exact Hi'pos.
  destruct (ratecv_loop width (Z.to_pos i') o' samples (- o') 0 0)
    as [out st].
  exists out, st. split; [reflexivity|].
  simpl in H. rewrite H, Hlen.
  replace (- o' + len fragment / width * o')
    with ((len fragment / width - 1) * o') by ring.
  replace ((len fragment / width - 1) * outrate / inrate)
    with ((len fragment / width - 1) * o' / i'); [reflexivity|].
  clearbody g. subst inrate outrate.
  rewrite Z.mul_assoc. rewrite Z.div_mul_cancel_r by lia. reflexivity.
Qed.

End ratecv_count.

Module Payload.
Import audioop audioop_facts ratecv_count Demo Watch.

Lemma check_size_rejects (size : Z) :
  ~ 1 <= size <= 4 -> exists e, check_size size = Raise e.
Proof.
  intros H. unfold check_size.
  destruct (size <? 1) eqn:E1; [eexists; reflexivity|].
  destruct (4 <? size) eqn:E2; [eexists; reflexivity|]. lia.
Qed.

Lemma check_parameters_rejects (length size : Z) :
  ~ (1 <= size <= 4 /\ length mod size = 0) ->
  exists e, check_parameters length size = Raise e.
Proof.
  intros H. unfold check_parameters.
  destruct (Z_le_dec 1 size) as [H1|H1];
    [destruct (Z_le_dec size 4) as [H4|H4]|].
  - rewrite check_size_ok by lia. simpl.
    destruct (Z.eqb_spec (length mod size) 0) as [E|E]; simpl.
    + exfalso. apply H. split; [lia | exact E].
    + eexists; reflexivity.
  - destruct (check_size_rejects size ltac:(lia)) as [e ->].
    eexists; reflexivity.
  - destruct (check_size_rejects size ltac:(lia)) as [e ->].
    eexists; reflexivity.
Qed.

(** [tomono] rejects every fragment that is not made of whole two-sample
    frames of a width from 1 to 4. *)
Lemma tomono_rejects (fragment : bytes) (width : Z) (lfactor rfactor : Q) :
  ~ (1 <= width <= 4 /\ len fragment mod width = 0
     /\ Z.even (len fragment / width) = true) ->
  exists e, tomono fragment width lfactor rfactor = Raise e.
Proof.
  intros H. unfold tomono.
  destruct (check_parameters (len fragment) width) as [[]|e] eqn:E;
    [|eexists; reflexivity].
  simpl.
  destruct (Z.odd (len fragment / width)) eqn:Eo; [eexists; reflexivity|].
  exfalso. apply H.
  destruct (Z_le_dec 1 width); [destruct (Z_le_dec width 4)|];
    try (destruct (check_parameters_rejects (len fragment) width
                     ltac:(lia)) as [e He]; congruence).
  destruct (Z.eq_dec (len fragment mod width) 0) as [Em|Em].
  - repeat split; try lia. rewrite <- Z.negb_odd, Eo. reflexivity.
  - destruct (check_parameters_rejects (len fragment) width
                ltac:(tauto)) as [e He]. congruence.
Qed.

(** [lin2ulaw] rejects every fragment that is not made of whole samples
    of a width from 1 to 4. *)
Lemma lin2ulaw_rejects (fragment : bytes) (width : Z) :
  ~ (1 <= width <= 4 /\ len fragment mod width = 0) ->
  exists e, lin2ulaw fragment width = Raise e.
Proof.
  intros H. unfold lin2ulaw.
  destruct (check_parameters_rejects _ _ H) as [e ->].
  eexists; reflexivity.
Qed.

(** [ratecv] rejects every fragment that is not made of whole samples of
    a width from 1 to 4, and every input rate that is not positive or
    does not fit a C int. *)
Lemma ratecv_rejects (fragment : bytes) (width inrate outrate : Z) :
  ~ (1 <= width <= 4 /\ len fragment mod width = 0
     /\ 0 < inrate <= INT_MAX) ->
  exists e, ratecv fragment width inrate outrate = Raise e.
Proof.
  intros H. unfold ratecv.
  destruct ((inrate <? - INT_MAX - 1) || (INT_MAX <? inrate)) eqn:E1;
    [eexists; reflexivity|].
  apply orb_false_elim in E1 as [E1a E1b].
  destruct (check_size width) as [[]|e] eqn:E2; [|eexists; reflexivity].
  simpl. rewrite Z.mul_1_r.
  destruct (Z.eqb_spec (len fragment mod width) 0) as [Em|Em]; simpl;
    [|eexists; reflexivity].
  destruct ((inrate <=? 0) || (outrate <=? 0)) eqn:E3;
    [eexists; reflexivity|].
  apply orb_false_elim in E3 as [E3a E3b].
  exfalso. apply H. repeat split; try lia.
  - destruct (Z_le_dec 1 width); [lia|].
    destruct (check_size_rejects width ltac:(lia)). congruence.
  - destruct (Z_le_dec width 4); [lia|].
    destruct (check_size_rejects width ltac:(lia)). congruence.
Qed.

(** X11.  The number of mu-law bytes [transcode] returns for a file it accepts:
    one byte for each sample left after the mono stage when the file is at
    8000 Hz, and otherwise one byte for the first of these [n] samples and
    one more for every [rate / 8000] of the remaining ones, that is
    [(n - 1) * 8000 / rate + 1]; none for a file without frames. *)
Theorem transcode_payload_length (w : wav) :
  transcodable w = true ->
  exists mulaw,
    transcode w = Ok mulaw
    /\ len mulaw
       = if rate w =? 8000 then mono_samples w
         else Z.max 0 ((mono_samples w - 1) * 8000 / rate w + 1).
Proof.
  destruct w as [fr wd rt nc]. unfold transcodable, mono_samples. simpl.
  intros H.
  apply andb_prop in H as [H Hrate]. apply andb_prop in H as [H Heven].
  apply andb_prop in H as [H Hmod]. apply andb_prop in H as [Hw1 Hw4].
  apply Z.leb_le in Hw1, Hw4. apply Z.eqb_eq in Hmod.
  assert (Hw : 1 <= wd <= 4) by lia.
  assert (Hq : len fr = wd * (len fr / wd)) by (apply Z.div_exact; lia).
  set (n := len fr / wd) in *.
  assert (Hn : 0 <= n) by (apply Z.div_pos; unfold len; lia).
  unfold transcode, convert_to_mono. simpl.
  (* the mono stage *)
  assert (Hmono : exists mono,
    (if nc =? 2 then tomono fr wd (1 # 2) (1 # 2) else Ok fr) = Ok mono
    /\ len mono = wd * (len fr / (wd * (if nc =? 2 then 2 else 1)))).
  { destruct (nc =? 2).
    - destruct (Zeven_ex n) as [k Hk]; [now apply Zeven_bool_iff|].
      destruct (tomono_length fr wd (1 # 2) (1 # 2) Hw) as (mono & E & L).
      { rewrite Hq, Hk. replace (wd * (2 * k)) with (k * (wd * 2)) by ring.
        apply Z_mod_mult. }
      exists mono. split; [exact E|]. rewrite L, Hq, Hk.
      replace (wd * (2 * k)) with (wd * k * 2) by ring.
      rewrite Z_div_mult by lia.
      replace (wd * k * 2) with (k * (wd * 2)) by ring.
      rewrite Z_div_mult by lia. reflexivity.
    - exists fr. split; [reflexivity|]. now rewrite Z.mul_1_r. }
  destruct Hmono as (mono & -> & Lmono). simpl.
  set (m := len fr / (wd * (if nc =? 2 then 2 else 1))) in *.
  assert (Hmm : len mono mod wd = 0)
    by (rewrite Lmono, Z.mul_comm; apply Z_mod_mult).
  assert (Hmd : len mono / wd = m)
    by (rewrite Lmono, Z.mul_comm; apply Z_div_mult; lia).
  (* the resampling stage *)
  unfold resample_to_8k.
  destruct (Z.eqb_spec rt 8000) as [E8|E8]; simpl.
  - destruct (lin2ulaw_length mono wd Hw Hmm) as (mulaw & -> & L).
    exists mulaw. split; [reflexivity|]. now rewrite L.
  - apply orb_prop in Hrate as [Hr|Hr]; [discriminate Hr|].
    apply andb_prop in Hr as [Hr1 Hr2].
    apply Z.ltb_lt in Hr1. apply Z.leb_le in Hr2.
    destruct (ratecv_length mono wd rt 8000 Hw Hmm ltac:(lia) ltac:(lia))
      as (out & st & -> & Lout).
    simpl. rewrite Hmd in Lout.
    destruct (lin2ulaw_length out wd Hw) as (mulaw & -> & L).
    { rewrite Lout, Z.mul_comm. apply Z_mod_mult. }
    exists mulaw. split; [reflexivity|].
    rewrite L, Lout, Z.mul_comm. apply Z_div_mult. lia.
Qed.

(** X12.  [transcode] raises for every other file: a sample width outside 1 to
    4, a byte count that is not a whole number of samples (of frames, for
    two channels), or a rate other than 8000 that is not positive or does
    not fit a C int. *)
Theorem transcode_rejects (w : wav) :
  transcodable w = false -> exists e, transcode w = Raise e.
Proof.
  destruct w as [fr wd rt nc]. unfold transcodable. simpl. intros H.
  unfold transcode, convert_to_mono, resample_to_8k. simpl.
  destruct (Z.eqb_spec nc 2) as [E2|E2].
  - (* two channels *)
    destruct (tomono fr wd (1 # 2) (1 # 2)) as [mono|e] eqn:Em;
      [|eexists; reflexivity].
    simpl.
    destruct (Z_le_dec 1 wd) as [H1|H1];
      [destruct (Z_le_dec wd 4) as [H4|H4]|];
      try (destruct (tomono_rejects fr wd (1 # 2) (1 # 2) ltac:(lia))
             as [e He]; congruence).
    destruct (Z.eq_dec (len fr mod wd) 0) as [Hm|Hm];
      [|destruct (tomono_rejects fr wd (1 # 2) (1 # 2) ltac:(tauto))
          as [e He]; congruence].
    destruct (Z.even (len fr / wd)) eqn:Ev;
      [|destruct (tomono_rejects fr wd (1 # 2) (1 # 2)
                    ltac:(intros (_ & _ & ?); congruence))
          as [e He]; congruence].
    assert (Hw1 : (1 <=? wd) = true) by now apply Z.leb_le.
    assert (Hw4 : (wd <=? 4) = true) by now apply Z.leb_le.
    rewrite Hw1, Hw4, Hm in H. simpl in H.
    apply orb_false_elim in H as [Hr8 Hr].
    rewrite Hr8. simpl.
    destruct (ratecv_rejects mono wd rt 8000) as [e ->];
      [|eexists; reflexivity].
    intros (_ & _ & Hrt).
    apply andb_false_elim in Hr as [Hr|Hr];
      [apply Z.ltb_ge in Hr | apply Z.leb_gt in Hr]; lia.
  - (* any other number of channels *)
    simpl.
    destruct (Z.eqb_spec rt 8000) as [E8|E8]; simpl.
    + apply lin2ulaw_rejects. intros [Hw Hm].
      assert (Hw1 : (1 <=? wd) = true) by (apply Z.leb_le; lia).
      assert (Hw4 : (wd <=? 4) = true) by (apply Z.leb_le; lia).
      rewrite Hw1, Hw4, Hm in H. simpl in H. discriminate.
    + destruct (ratecv_rejects fr wd rt 8000) as [e ->];
        [|eexists; reflexivity].
      intros (Hw & Hm & Hrt).
      assert (Hw1 : (1 <=? wd) = true) by (apply Z.leb_le; lia).
      assert (Hw4 : (wd <=? 4) = true) by (apply Z.leb_le; lia).
      assert (Hr1 : (0 <? rt) = true) by (apply Z.ltb_lt; lia).
      assert (Hr2 : (rt <=? INT_MAX) = true) by (apply Z.leb_le; lia).
      rewrite Hw1, Hw4, Hm, Hr1, Hr2 in H. simpl in H. discriminate.
Qed.

End Payload.

(* ===================================================================== *)
(** ** The mu-law codec as the two adapters use it *)
(* ===================================================================== *)

Module Codec.
Import audioop audioop_facts.

Lemma get_unsigned_app_r (cp1 cp2 : bytes) (size : nat) :
  forall i, get_unsigned (cp1 ++ cp2) (length cp1 + i) size
            = get_unsigned cp2 i size.
Proof.
  induction size as [|k IH]; intros i; simpl; [reflexivity|].
  rewrite app_nth2_plus. f_equal. f_equal.
  rewrite <- IH. f_equal. lia.
Qed.

Lemma get_unsigned_app_l (cp1 cp2 : bytes) (size : nat) :
  forall i, (i + size <= length cp1)%nat ->
            get_unsigned (cp1 ++ cp2) i size = get_unsigned cp1 i size.
Proof.
  induction size as [|k IH]; intros i Hi; simpl; [reflexivity|].
  rewrite app_nth1 by lia. rewrite IH by lia. reflexivity.
Qed.

(** Reading a sample past a prefix of [k] whole samples. *)
Lemma GETSAMPLE32_app_r (size : Z) (cp1 cp2 : bytes) (i : Z) :
  0 <= i ->
  GETSAMPLE32 size (cp1 ++ cp2) (len cp1 + i) = GETSAMPLE32 size cp2 i.
Proof.
  intros Hi. unfold GETSAMPLE32, GETRAWSAMPLE, len.
  rewrite Z2Nat.inj_add, Nat2Z.id by lia.
  rewrite get_unsigned_app_r. reflexivity.
Qed.

(** Reading the first sample of a fragment that starts with it. *)
Lemma GETSAMPLE32_app_l (size : Z) (cp1 cp2 : bytes) :
  length cp1 = Z.to_nat size ->
  GETSAMPLE32 size (cp1 ++ cp2) 0 = GETSAMPLE32 size cp1 0.
Proof.
  intros Hl. unfold GETSAMPLE32, GETRAWSAMPLE. simpl Z.to_nat.
  rewrite get_unsigned_app_l by lia. reflexivity.
Qed.

Lemma indices_succ (n : nat) :
  indices (Z.of_nat (S n)) = 0 :: map Z.succ (indices (Z.of_nat n)).
Proof.
  unfold indices. rewrite !Nat2Z.id. simpl. f_equal.
  rewrite <- seq_shift, !map_map. apply map_ext. intros k. lia.
Qed.

(** A loop over the sample indices of a fragment built sample by sample
    is a map over the samples. *)
Lemma samples_of_flat_map {A B : Type} (size : Z) (f : A -> bytes)
  (g : Z -> B) (l : list A) :
  0 < size ->
  (forall x, length (f x) = Z.to_nat size) ->
  map (fun k => g (GETSAMPLE32 size (flat_map f l) (k * size)))
    (indices (len l))
  = map (fun x => g (GETSAMPLE32 size (f x) 0)) l.
Proof.
  intros Hs Hf. induction l as [|x l IH]; [reflexivity|].
  unfold len in *. change (length (x :: l)) with (S (length l)).
  rewrite indices_succ. simpl. f_equal.
  - now rewrite GETSAMPLE32_app_l.
  - rewrite <- IH, map_map. apply map_ext_in. intros k Hk.
    f_equal.
    replace (Z.succ k * size) with (len (f x) + k * size)
      by (unfold len; rewrite Hf; lia).
    apply GETSAMPLE32_app_r.
    unfold indices in Hk. apply in_map_iff in Hk as (j & <- & _). lia.
Qed.

(** One mu-law byte decoded to a 16-bit sample and encoded again. *)
Lemma ulaw_byte_round_trip (b : byte) :
  byte_of_Z
    (st_14linear2ulaw
       (Z.shiftr
          (GETSAMPLE32 2
             (SETSAMPLE32 2 (Z.shiftl (st_ulaw2linear16 (Z_of_byte b)) 16))
             0)
          18))
  = if Byte.eqb b x7f then xff else b.
Proof. destruct b; vm_compute; reflexivity. Qed.

(** Decoding mu-law bytes to 16-bit samples and encoding the samples
    again gives the bytes back, but for the code [0x7f] of negative zero,
    which comes back as the code [0xff] of zero. *)
Lemma ulaw_round_trip (fragment : bytes) :
  (pcm ← ulaw2lin fragment 2; lin2ulaw pcm 2)
  = Ok (map (fun b => if Byte.eqb b x7f then xff else b) fragment).
Proof.
  unfold ulaw2lin. simpl mbind. unfold mbind, result_bind.
  unfold lin2ulaw.
  set (f := fun b : byte =>
              SETSAMPLE32 2 (Z.shiftl (st_ulaw2linear16 (Z_of_byte b)) 16)).
  assert (Hf : forall b, length (f b) = Z.to_nat 2)
    by (intros b; apply length_SETSAMPLE32).
  assert (Hlen : len (flat_map f fragment) = len fragment * 2).
  { unfold len. rewrite (flat_map_constant_length (c := 2%nat)); [lia|].
    intros b _. apply Hf. }
  rewrite check_parameters_ok; [|lia|rewrite Hlen; apply Z_mod_mult].
  simpl. f_equal. rewrite Hlen, Z_div_mult by lia.
  rewrite (samples_of_flat_map 2 f
             (fun val => byte_of_Z (st_14linear2ulaw (Z.shiftr val 18))))
    by (lia || exact Hf).
  apply map_ext. intros b. apply ulaw_byte_round_trip.
Qed.

Lemma GETRAWSAMPLE_app_r (size : Z) (cp1 cp2 : bytes) (i : Z) :
  0 <= i ->
  GETRAWSAMPLE size (cp1 ++ cp2) (len cp1 + i) = GETRAWSAMPLE size cp2 i.
Proof.
  intros Hi. unfold GETRAWSAMPLE, len.
  rewrite Z2Nat.inj_add, Nat2Z.id by lia.
  rewrite get_unsigned_app_r. reflexivity.
Qed.

Lemma GETRAWSAMPLE_app_l (size : Z) (cp1 cp2 : bytes) :
  length cp1 = Z.to_nat size ->
  GETRAWSAMPLE size (cp1 ++ cp2) 0 = GETRAWSAMPLE size cp1 0.
Proof.
  intros Hl. unfold GETRAWSAMPLE. simpl Z.to_nat.
  rewrite get_unsigned_app_l by lia. reflexivity.
Qed.

(** The [k]-th sample of a fragment built sample by sample. *)
Lemma GETRAWSAMPLE_flat_map {A : Type} (size : Z) (f : A -> bytes)
  (d : A) (l : list A) :
  0 < size ->
  (forall x, length (f x) = Z.to_nat size) ->
  forall k, (k < length l)%nat ->
    GETRAWSAMPLE size (flat_map f l) (Z.of_nat k * size)
    = GETRAWSAMPLE size (f (nth k l d)) 0.
Proof.
  intros Hs Hf. induction l as [|x l IH]; intros k Hk; simpl in Hk; [lia|].
  destruct k as [|k]; simpl flat_map; simpl nth.
  - now rewrite GETRAWSAMPLE_app_l.
  - replace (Z.of_nat (S k) * size) with (len (f x) + Z.of_nat k * size)
      by (unfold len; rewrite Hf; lia).
    rewrite GETRAWSAMPLE_app_r by lia. apply IH. lia.
Qed.

Lemma Z_of_byte_range (b : byte) : 0 <= Z_of_byte b < 256.
Proof. destruct b; vm_compute; split; congruence. Qed.

(** A two-byte sample is a 16-bit integer. *)
Lemma GETRAWSAMPLE_16_range (cp : bytes) (i : Z) :
  -32768 <= GETRAWSAMPLE 2 cp i <= 32767.
Proof.
  unfold GETRAWSAMPLE. change (Z.to_nat 2) with 2%nat. simpl get_unsigned.
  pose proof (Z_of_byte_range (nth (Z.to_nat i) cp x00)).
  pose proof (Z_of_byte_range (nth (S (Z.to_nat i)) cp x00)).
  change (2 ^ (8 * 2 - 1)) with 32768. change (2 ^ (8 * 2)) with 65536.
  destruct (_ <? 32768) eqn:E; [apply Z.ltb_lt in E | apply Z.ltb_ge in E];
    lia.
Qed.

(** What [ulaw2lin] stores for a byte reads back as the table entry. *)
Lemma ulaw_sample_stored (b : byte) :
  GETRAWSAMPLE 2
    (SETSAMPLE32 2 (Z.shiftl (st_ulaw2linear16 (Z_of_byte b)) 16)) 0
  = st_ulaw2linear16 (Z_of_byte b).
Proof. destruct b; vm_compute; reflexivity. Qed.

(** Every 16-bit sample, encoded and decoded, is off by 644 at most:
    checked sample by sample, high byte by low byte. *)
Lemma ulaw_sample_error_checked :
  forallb
    (fun hi =>
       forallb
         (fun lo =>
            let x := Z.of_nat hi * 256 + Z.of_nat lo - 32768 in
            Z.abs
              (st_ulaw2linear16
                 (Z_of_byte
                    (byte_of_Z
                       (st_14linear2ulaw (Z.shiftr (Z.shiftl x 16) 18))))
               - x) <=? 644)
         (seq 0 256))
    (seq 0 256)
  = true.
Proof. vm_compute. reflexivity. Qed.

Lemma ulaw_sample_error (x : Z) :
  -32768 <= x <= 32767 ->
  Z.abs
    (st_ulaw2linear16
       (Z_of_byte
          (byte_of_Z (st_14linear2ulaw (Z.shiftr (Z.shiftl x 16) 18))))
     - x) <= 644.
Proof.
  intros Hx.
  pose proof (Z.div_mod (x + 32768) 256 ltac:(lia)) as Hdm.
  pose proof (Z.mod_pos_bound (x + 32768) 256 ltac:(lia)) as Hlo.
  assert (Hhi : 0 <= (x + 32768) / 256 < 256).
  { split; [apply Z.div_pos; lia | apply Z.div_lt_upper_bound; lia]. }
  pose proof (proj1 (forallb_forall _ _) ulaw_sample_error_checked
                (Z.to_nat ((x + 32768) / 256))) as H.
  cbv beta in H.
  specialize (H ltac:(apply in_seq; lia)).
  pose proof (proj1 (forallb_forall _ _) H
                (Z.to_nat ((x + 32768) mod 256))) as H'.
  cbv beta zeta in H'.
  specialize (H' ltac:(apply in_seq; lia)).
  rewrite !Z2Nat.id in H' by lia.
  replace ((x + 32768) / 256 * 256 + (x + 32768) mod 256 - 32768)
    with x in H' by lia.
  apply Z.leb_le, H'.
Qed.

(** Encoding 16-bit samples as mu-law and decoding them again keeps the
    number of samples and changes no sample by more than 644. *)
Lemma ulaw_quantisation_error (fragment : bytes) :
  len fragment mod 2 = 0 ->
  exists ulaw pcm,
    lin2ulaw fragment 2 = Ok ulaw
    /\ ulaw2lin ulaw 2 = Ok pcm
    /\ len pcm = len fragment
    /\ forall k, 0 <= k < len fragment / 2 ->
         Z.abs (GETRAWSAMPLE 2 pcm (k * 2) - GETRAWSAMPLE 2 fragment (k * 2))
         <= 644.
Proof.
  intros Hm.
  destruct (lin2ulaw_length fragment 2 ltac:(lia) Hm) as (ulaw & Hu & Lu).
  destruct (ulaw2lin_length ulaw 2 ltac:(lia)) as (pcm & Hp & Lp).
  exists ulaw, pcm. split; [exact Hu|]. split; [exact Hp|].
  assert (Hn : 0 <= len fragment / 2)
    by (apply Z.div_pos; unfold len; lia).
  split.
  { rewrite Lp, Lu. symmetry. rewrite Z.mul_comm.
    apply Z.div_exact; lia. }
  intros k Hk.
  unfold lin2ulaw in Hu. rewrite check_parameters_ok in Hu by (lia || exact Hm).
  simpl in Hu. injection Hu as <-.
  unfold ulaw2lin in Hp. simpl in Hp. injection Hp as <-.
  set (enc := fun k => byte_of_Z _) in *.
  set (f := fun b : byte => SETSAMPLE32 2 _).
  rewrite <- (Z2Nat.id k) at 1 by lia.
  rewrite (GETRAWSAMPLE_flat_map 2 f x00).
  2: lia.
  2:{ intros b. apply length_SETSAMPLE32. }
  2:{ rewrite length_map, length_indices. lia. }
  rewrite (nth_indep _ x00 (enc 0))
    by (rewrite length_map, length_indices; lia).
  rewrite map_nth. unfold indices.
  rewrite (nth_indep _ 0 (Z.of_nat 0))
    by (rewrite length_map, length_seq; lia).
  rewrite map_nth, seq_nth by lia. simpl Nat.add. rewrite Z2Nat.id by lia.
  unfold f, enc. rewrite ulaw_sample_stored.
  unfold GETSAMPLE32. change (32 - 8 * 2) with 16.
  apply ulaw_sample_error, GETRAWSAMPLE_16_range.
Qed.

End Codec.

(* ===================================================================== *)
(** ** The two adapters against each other *)
(* ===================================================================== *)

Module Adapters.
Import audioop audioop_facts Codec Demo.

(** X13.  What the synthesis adapter decodes for playback (16-bit mono samples
    at 8000 Hz), put through the transcoding of the transcription adapter,
    gives the engine's mu-law bytes back, but for the code [0x7f] of
    negative zero, which comes back as the code [0xff] of zero. *)
Theorem transcode_of_playback (ulaw_data : bytes) :
  (pcm_data ← ulaw2lin ulaw_data 2;
   transcode {| frames := pcm_data; width := 2; rate := 8000;
                n_channels := 1 |})
  = Ok (map (fun b => if Byte.eqb b x7f then xff else b) ulaw_data).
Proof.
  rewrite <- ulaw_round_trip.
  destruct (ulaw2lin ulaw_data 2) as [pcm_data|e]; reflexivity.
Qed.

(** X14.  A recording of whole 16-bit samples at 8000 Hz that is not stereo is
    sent as one mu-law byte for each sample, and decoding these bytes the
    way the synthesis adapter does gives as many samples back, none of
    them off by more than 644. *)
Theorem transcode_quantisation_error (w : wav) :
  width w = 2 -> rate w = 8000 -> n_channels w <> 2 ->
  len (frames w) mod 2 = 0 ->
  exists mulaw_bytes pcm_data,
    transcode w = Ok mulaw_bytes
    /\ ulaw2lin mulaw_bytes 2 = Ok pcm_data
    /\ len mulaw_bytes = len (frames w) / 2
    /\ len pcm_data = len (frames w)
    /\ forall k, 0 <= k < len (frames w) / 2 ->
         Z.abs (GETRAWSAMPLE 2 pcm_data (k * 2)
                - GETRAWSAMPLE 2 (frames w) (k * 2))
         <= 644.
Proof.
  destruct w as [fr wd rt nc]. simpl. intros -> -> Hnc Hm.
  destruct (ulaw_quantisation_error fr Hm) as (ulaw & pcm & Hu & Hp & L & Hk).
  exists ulaw, pcm.
  unfold transcode, convert_to_mono, resample_to_8k. simpl.
  destruct (Z.eqb_spec nc 2) as [E|_]; [contradiction|]. simpl.
  split; [exact Hu|]. split; [exact Hp|]. split; [|split; assumption].
  destruct (lin2ulaw_length fr 2 ltac:(lia) Hm) as (ulaw' & Hu' & Lu).
  congruence.
Qed.

End Adapters.

(* ===================================================================== *)
(** ** The health checks *)
(* ===================================================================== *)

Module Checks.
Import Demo Demo_facts PyMore Preflight.

Lemma comprehension_all {A B} (f : A -> result B) (l : list A) (ys : list B) :
  Forall2 (fun m y => f m = Ok y) l ys -> comprehension f l = Ok ys.
Proof.
  induction 1 as [|m y l ys Hm _ IH]; simpl; [reflexivity|].
  now rewrite Hm, IH.
Qed.

Lemma comprehension_raises {A B} (f : A -> result B) (l : list A) (m : A) :
  In m l -> (exists e, f m = Raise e) ->
  exists e, comprehension f l = Raise e.
Proof.
  intros Hin [e He]. induction l as [|m' l IH]; [contradiction|].
  simpl. destruct Hin as [-> | Hin].
  - rewrite He. eauto.
  - destruct (f m') as [y|e']; [|eauto].
    destruct (IH Hin) as [e'' ->]. eauto.
Qed.

Lemma py_any_names (names : list string) :
  py_any (fun m => lowered ← py_lower m; Ok (contains "ministral" lowered))
    (map JStr names)
  = Ok (existsb (fun name => contains "ministral" (lower name)) names).
Proof.
  induction names as [|name names IH]; [reflexivity|].
  simpl. destruct (contains "ministral" (lower name)); [reflexivity|].
  exact IH.
Qed.

Section Probes.

Context {W : Type} (sv : services W) (pr : probes W).

(** X15.  When the model server answers 200 with a tag list whose entries all
    carry a string [name], [check_ollama_connection] tells whether one of
    the names holds [ministral], whatever the case of its letters. *)
Theorem check_ollama_connection_listed
  (w w' : W) (tr : list run_event) (resp : get_response)
  (data : gmap string json) (entries : list json) (names : list string) :
  http_get pr (OLLAMA_URL ++ "/api/tags") 5 w = (Ok resp, w') ->
  get_status resp = 200 ->
  get_json resp = Ok (JObj data) ->
  data !! "models"%string = Some (JArr entries) ->
  Forall2 (fun entry name => py_getitem entry "name" = Ok (JStr name))
    entries names ->
  check_ollama_connection pr (w, tr)
  = (Ok (existsb (fun name => contains "ministral" (lower name)) names),
     (w', tr ++ [EvHttpGet (OLLAMA_URL ++ "/api/tags") 5])).
Proof.
  intros Hget Hstatus Hjson Hmodels Hnames.
  cbv [check_ollama_connection ptry pcall plift mbind mret PM_bind PM_ret].
  cbn beta iota zeta. rewrite Hget, Hstatus, Hjson. cbn beta iota zeta.
  unfold has_ministral. simpl. rewrite Hmodels. simpl.
  rewrite (comprehension_all _ entries (map JStr names)).
  - simpl. now rewrite py_any_names.
  - clear -Hnames. induction Hnames; constructor; assumption.
Qed.

(** X16.  One entry of the tag list that is not an object with a [name] is
    enough for [check_ollama_connection] to answer no, even when another
    entry names a Ministral model; it does not raise. *)
Theorem check_ollama_connection_bad_entry
  (w w' : W) (tr : list run_event) (resp : get_response)
  (data : gmap string json) (entries : list json) (entry : json) :
  http_get pr (OLLAMA_URL ++ "/api/tags") 5 w = (Ok resp, w') ->
  get_status resp = 200 ->
  get_json resp = Ok (JObj data) ->
  data !! "models"%string = Some (JArr entries) ->
  In entry entries ->
  (exists e, py_getitem entry "name" = Raise e) ->
  check_ollama_connection pr (w, tr)
  = (Ok false, (w', tr ++ [EvHttpGet (OLLAMA_URL ++ "/api/tags") 5])).
Proof.
  intros Hget Hstatus Hjson Hmodels Hin Hbad.
  cbv [check_ollama_connection ptry pcall plift mbind mret PM_bind PM_ret].
  cbn beta iota zeta. rewrite Hget, Hstatus, Hjson. cbn beta iota zeta.
  unfold has_ministral. simpl. rewrite Hmodels. simpl.
  destruct (comprehension_raises (fun m => py_getitem m "name")
              entries entry Hin Hbad) as [e ->].
  reflexivity.
Qed.



(** X17.  [check_rasa_connection] asks for the root of the dialogue server, the
    webhook path taken off [RASA_URL], once and with a timeout of five
    seconds; it answers yes exactly when the status is 200 and no when the
    request raises.  It never raises. *)
Theorem check_rasa_connection_outcome (w : W) (tr : list run_event) :
  let '(answer, w') := http_get pr "http://localhost:5005/" 5 w in
  check_rasa_connection pr (w, tr)
  = (Ok (match answer with
         | Ok resp => get_status resp =? 200
         | Raise _ => false
         end),
     (w', tr ++ [EvHttpGet "http://localhost:5005/" 5])).
Proof.
  cbv [check_rasa_connection ptry pcall plift mbind mret PM_bind PM_ret].
  cbn beta iota zeta.
  change (remove_all "/webhooks/rest/webhook" RASA_URL ++ "/")%string
    with "http://localhost:5005/"%string.
  destruct (http_get pr _ 5 w) as [[resp|e] w']; reflexivity.
Qed.

(** X18.  [check_asr_connection] answers yes only when the connection opens and
    both the explicit close and the close on leaving the block succeed;
    when the connection is refused it answers no and closes nothing.  It
    never raises. *)
Theorem check_asr_connection_outcome (w : W) (tr : list event) :
  match ws_connect sv w with
  | (Raise _, w1) =>
      check_asr_connection sv (w, tr) = (Ok false, (w1, tr ++ [EvWsConnect 2]))
  | (Ok _, w1) =>
      let '(closed, w2) := ws_close sv w1 in
      let '(on_exit, w3) := ws_close sv w2 in
      check_asr_connection sv (w, tr)
      = (Ok (match closed, on_exit with Ok _, Ok _ => true | _, _ => false end),
         (w3, tr ++ [EvWsConnect 2; EvWsClose; EvWsClose]))
  end.
Proof.
  unfold check_asr_connection. run.
  destruct (ws_connect sv w) as [[[]|e] w1]; cbn beta iota zeta;
    [|reflexivity].
  destruct (ws_close sv w1) as [[[]|e1] w2]; cbn beta iota zeta;
    destruct (ws_close sv w2) as [[[]|e2] w3]; cbn beta iota zeta;
    rewrite <- ?app_assoc; reflexivity.
Qed.

End Probes.

End Checks.

(* ===================================================================== *)
(** ** The conversation never looks at its trace *)
(* ===================================================================== *)

Module Frame.
Import Demo Preflight Watch_run.

Section Framed.

Context {W : Type} (sv : services W).

Lemma framed_ret {A} (a : A) : framed (mret a : @M W A).
Proof. intros w tr. cbv [mret M_ret]. now rewrite app_nil_r. Qed.

Lemma framed_lift {A} (r : result A) : framed (lift r : @M W A).
Proof. intros w tr. cbv [lift]. now rewrite app_nil_r. Qed.

Lemma framed_emit (ev : event) : framed (emit ev : @M W unit).
Proof. intros w tr. reflexivity. Qed.

Lemma framed_call {A} (ev : event) (f : W -> result A * W) :
  framed (call ev f).
Proof. intros w tr. cbv [call]. now destruct (f w). Qed.

Lemma framed_ask {A} (ev : event) (f : W -> A * W) : framed (ask ev f).
Proof. intros w tr. cbv [ask]. now destruct (f w). Qed.

Lemma framed_bind {A B} (m : @M W A) (k : A -> @M W B) :
  framed m -> (forall a, framed (k a)) -> framed (m ≫= k).
Proof.
  intros Hm Hk w tr. cbv [mbind M_bind].
  rewrite (Hm w tr). destruct (m (w, [])) as [[a|e] [w1 evs1]].
  - rewrite (Hk a w1 (tr ++ evs1)), (Hk a w1 evs1).
    destruct (k a (w1, [])) as [r [w2 evs2]]. now rewrite app_assoc.
  - reflexivity.
Qed.

Lemma framed_try {A} (body : @M W A) (handler : exn -> @M W A) :
  framed body -> (forall e, framed (handler e)) ->
  framed (try_except body handler).
Proof.
  intros Hb Hh w tr. cbv [try_except].
  rewrite (Hb w tr). destruct (body (w, [])) as [[a|e] [w1 evs1]].
  - reflexivity.
  - rewrite (Hh e w1 (tr ++ evs1)), (Hh e w1 evs1).
    destruct (handler e (w1, [])) as [r [w2 evs2]]. now rewrite app_assoc.
Qed.

Lemma framed_closing {A} (body : @M W A) :
  framed body -> framed (closing sv body).
Proof.
  intros Hb w tr. cbv [closing call].
  rewrite (Hb w tr). destruct (body (w, [])) as [[a|e] [w1 evs1]];
    destruct (ws_close sv w1) as [[[]|e'] w2];
    now rewrite <- ?app_assoc.
Qed.

Lemma framed_if {A} (b : bool) (m1 m2 : @M W A) :
  framed m1 -> framed m2 -> framed (if b then m1 else m2).
Proof. now destruct b. Qed.

(** Proves that a computation built from the operations of the monad is
    framed. *)
Ltac frame :=
  repeat lazymatch goal with
  | |- forall _, _ => intro
  | |- framed (mret _) => apply framed_ret
  | |- framed (lift _) => apply framed_lift
  | |- framed (emit _) => apply framed_emit
  | |- framed (call _ _) => apply framed_call
  | |- framed (print_error _ _ _) => unfold print_error; apply framed_call
  | |- framed (ask _ _) => apply framed_ask
  | |- framed (mbind _ _) => apply framed_bind
  | |- framed (try_except _ _) => apply framed_try
  | |- framed (closing _ _) => apply framed_closing
  | |- framed (match ?x with _ => _ end) => destruct x
  | |- framed (let _ := _ in _) => cbv zeta
  | _ => solve [auto]
  end.

Lemma framed_local_asr_transcribe (audio_path : path) :
  framed (local_asr_transcribe sv audio_path).
Proof.
  unfold local_asr_transcribe, local_asr_session, with_connection. frame.
Qed.

Lemma framed_neutts_synthesize (text : json) :
  framed (neutts_synthesize sv text).
Proof.
  unfold neutts_synthesize, neutts_session. frame.
Qed.

Lemma framed_agent_speaking (bot_responses : list reply) :
  forall full_history, framed (agent_speaking sv bot_responses full_history).
Proof.
  induction bot_responses as [|response rest IH]; intros full_history;
    simpl; [frame|].
  destruct (response !! "text"%string) as [agent_text|]; [|apply IH].
  pose proof framed_neutts_synthesize.
  unfold update_chat_view. frame.
Qed.

Lemma framed_rasa_thinking (transcript : string) :
  framed (rasa_thinking sv transcript).
Proof. unfold rasa_thinking. frame. Qed.

Lemma framed_run_demo_step (step : conversation_step)
  (full_history : list panel) :
  framed (run_demo_step sv step full_history).
Proof.
  pose proof framed_local_asr_transcribe.
  pose proof framed_rasa_thinking.
  pose proof framed_agent_speaking.
  unfold run_demo_step, update_chat_view. frame.
Qed.

(** The loop does from any trace what it does from the empty one. *)
Lemma framed_run_demo_loop (steps : list conversation_step) :
  forall full_history, framed (run_demo_loop sv steps full_history).
Proof.
  induction steps as [|step steps IH]; intros full_history; simpl.
  - frame.
  - pose proof framed_run_demo_step. frame.
Qed.

Lemma framed_check_asr_connection : framed (check_asr_connection sv).
Proof. unfold check_asr_connection, with_connection. frame. Qed.

End Framed.

End Frame.

(* ===================================================================== *)
(** ** The whole run *)
(* ===================================================================== *)

Module Whole_run.
Import Demo Demo_facts PyMore Preflight Watch_run Checks.

Section Run.

Context {W : Type} (sv : services W) (pr : probes W).








(** When the engine imports, the program is the entry point. *)
Lemma program_imported (w w0 : W) (tr : list run_event) :
  tts_import pr w = (Imported, w0) ->
  program sv pr (w, tr) = main sv pr (w0, tr ++ [EvTtsImport]).
Proof. intros H. unfold program. now rewrite H. Qed.


End Run.

End Whole_run.

(* ===================================================================== *)
(** ** More concrete runs *)
(* ===================================================================== *)

Module More_runs.
Import Demo Observe Watch PyMore Preflight Watch_run Stub Stub_probes.

(** Of three replies, the two that have a text become panels, in order;
    the engine is silent, so nothing is played. *)
Lemma two_texts_two_panels :
  fst (agent_speaking (world mute) three_replies
         [UserPanel "I want to transfer money."] start)
  = Ok [UserPanel "I want to transfer money.";
        AgentPanel (JStr "Which account?");
        AgentPanel (JStr "Checking or savings?")].
Proof.
  destruct (agent_speaking (world mute) three_replies
              [UserPanel "I want to transfer money."] start)
    as [[full_history'|e] s'] eqn:E.
  - simpl. f_equal.
    exact (Dashboard.agent_speaking_history (world mute) three_replies
             [UserPanel "I want to transfer money."] full_history'
             start s' E).
  - vm_compute in E. discriminate E.
Defined.

(** Samples of eight bytes make the transcoding fail after the file has
    been read: the connection is closed all the same, then the error is
    logged. *)
Lemma failed_transcoding_closes_connection :
  exists r w' evs,
    local_asr_transcribe (world wide) first_input start
    = (r, (w', [] ++ evs))
    /\ opened_and_closed evs = true
    /\ match r with
       | Ok _ => True
       | Raise e' =>
           exists e w4,
             last evs = Some (EvLog (AsrError e))
             /\ print_outcome (world wide) AsrError e w4 = (Raise e', w')
       end.
Proof.
  exact (Socket.local_asr_transcribe_closes_connection (world wide)
           first_input tt tt [] eq_refl).
Defined.

(** A reply whose text is the number 42 gives the empty transcript and a
    logged error. *)
Lemma number_for_a_text :
  exists e,
    local_asr_transcribe (world numeric) first_input start
    = (Ok ""%string,
       (tt, [] ++ [EvWsConnect 5;
                   EvWaveRead first_input;
                   EvWsSend (Binary (map byte_of_Z [167; 255]));
                   EvWsSend request;
                   EvWsRecv;
                   EvWsClose;
                   EvLog (AsrError e)])).
Proof.
  apply (Socket.local_asr_transcribe_unusable_reply (world numeric)
           first_input [] tt tt tt tt tt tt tt stereo_16k
           (map byte_of_Z [167; 255]) (Text "reply")).
  - reflexivity.
  - reflexivity.
  - vm_compute. reflexivity.
  - reflexivity.
  - reflexivity.
  - reflexivity.
  - reflexivity.
  - exists (JNum 42). split; [reflexivity | discriminate].
Defined.

(** A reply of three blanks gives the empty transcript and no logged
    error. *)
Lemma blanks_for_a_text :
  local_asr_transcribe (world blank) first_input start
  = (Ok ""%string,
     (tt, [EvWsConnect 5;
           EvWaveRead first_input;
           EvWsSend (Binary (map byte_of_Z [167; 255]));
           EvWsSend request;
           EvWsRecv;
           EvWsClose])).
Proof.
  destruct (Socket.local_asr_transcribe_blank_reply (world blank)
              first_input [] tt tt tt tt tt tt tt stereo_16k
              (map byte_of_Z [167; 255]) (Text "reply")
              {[ "text"%string := JStr "   " ]} "   ")
    as (transcript & Hrun & Hblank).
  - reflexivity.
  - reflexivity.
  - vm_compute. reflexivity.
  - reflexivity.
  - reflexivity.
  - reflexivity.
  - reflexivity.
  - reflexivity.
  - reflexivity.
  - unfold start. rewrite Hrun.
    replace transcript with ""%string
      by (symmetry; apply Hblank; reflexivity).
    reflexivity.
Defined.

(** The transcript of the studio starts with a letter and ends with a
    full stop. *)
Lemma studio_transcript_is_clean :
  is_whitespace "I" = false /\ is_whitespace "." = false.
Proof.
  exact (Socket.local_asr_transcribe_clean (world studio) first_input start
           (tt, [EvWsConnect 5;
                 EvWaveRead first_input;
                 EvWsSend (Binary (map byte_of_Z [167; 255]));
                 EvWsSend request;
                 EvWsRecv;
                 EvWsClose])
           "I want to transfer money."
           ltac:(vm_compute; reflexivity)).
Defined.

(** With the dialogue service answering 503 the first round ends after
    the request: the user's panel is kept and the loop goes on. *)
Lemma overloaded_dialogue_ends_the_round :
  exists s',
    run_demo_step (world overloaded) first_step [] start
    = (Ok [UserPanel "I want to transfer money."], s')
    /\ run_demo_loop (world overloaded) [first_step; second_step] [] start
       = run_demo_loop (world overloaded) [second_step]
           [UserPanel "I want to transfer money."] s'.
Proof.
  eexists.
  apply (Rounds.run_demo_step_dialogue_failure (world overloaded)
           first_step [second_step] [] []
           [EvPathExists first_input;
            EvStatus (UserSpeaking "Transfer Request");
            EvPlayFile first_input;
            EvStatus Transcribing;
            EvWsConnect 5;
            EvWaveRead first_input;
            EvWsSend (Binary (map byte_of_Z [167; 255]));
            EvWsSend request;
            EvWsRecv;
            EvWsClose]
           tt tt tt tt tt tt "I want to transfer money."
           (dialogue overloaded) (RasaStatusError 503) (Ok tt)).
  - reflexivity.
  - reflexivity.
  - vm_compute. reflexivity.
  - discriminate.
  - reflexivity.
  - reflexivity.
  - reflexivity.
Defined.

(** A player that raises on the first recording ends the loop there. *)
Lemma broken_speaker_ends_the_loop :
  run_demo_loop (broken_speaker studio) [first_step; second_step] [] start
  = (Raise RuntimeError,
     (tt, [] ++ [EvPathExists first_input;
                 EvStatus (UserSpeaking "Transfer Request");
                 EvPlayFile first_input])).
Proof.
  apply (Rounds.run_demo_loop_user_playback_raises (broken_speaker studio)
           first_step [second_step] [] [] tt tt tt RuntimeError);
    reflexivity.
Defined.

(** A player that raises on the first reply: the second reply is neither
    shown nor spoken. *)
Lemma broken_player_ends_the_replies :
  agent_speaking (broken_player terse)
    [which_account; checking_or_savings] [] start
  = (Raise RuntimeError,
     (tt, [EvChatView [AgentPanel (JStr "Which account?")];
           EvStatus NeuTTSSpeaking;
           EvSynthesize (JStr "Which account?")]
          ++ [EvPlaySegment [x00; x00]])).
Proof.
  apply (Rounds.agent_speaking_playback_raises (broken_player terse)
           which_account [checking_or_savings] [] []
           [EvChatView [AgentPanel (JStr "Which account?")];
            EvStatus NeuTTSSpeaking;
            EvSynthesize (JStr "Which account?")]
           tt tt tt "Which account?" [x00; x00] RuntimeError).
  - reflexivity.
  - vm_compute. reflexivity.
  - discriminate.
  - reflexivity.
Defined.

(** Three chunks of 160 mu-law bytes give 480 whole samples. *)
Lemma studio_reply_has_whole_samples :
  exists pcm s',
    neutts_synthesize (world studio) (JStr "Which account?") start
    = (Ok pcm, s')
    /\ len pcm = 2 * 480.
Proof.
  destruct (neutts_synthesize (world studio) (JStr "Which account?") start)
    as [[pcm|e] s'] eqn:E.
  - exists pcm, s'. split; [reflexivity|].
    exact (Rounds.neutts_synthesize_whole_samples (world studio)
             (JStr "Which account?") tt [] pcm s' E).
  - vm_compute in E. discriminate E.
Defined.

(** Five samples at 11025 Hz go out as (5 - 1) * 8000 / 11025 + 1 = 3
    mu-law bytes. *)
Lemma voice_memo_payload :
  exists mulaw, transcode voice_memo = Ok mulaw /\ len mulaw = 3.
Proof.
  exact (Payload.transcode_payload_length voice_memo eq_refl).
Defined.

(** Samples of eight bytes are not transcoded. *)
Lemma double_width_is_rejected :
  exists e, transcode double_width = Raise e.
Proof.
  exact (Payload.transcode_rejects double_width eq_refl).
Defined.

(** Six samples at 8000 Hz declared as three channels: six mu-law bytes,
    and six samples back. *)
Lemma three_channels_quantised :
  exists mulaw_bytes pcm_data,
    transcode three_channels = Ok mulaw_bytes
    /\ audioop.ulaw2lin mulaw_bytes 2 = Ok pcm_data
    /\ len mulaw_bytes = 6
    /\ len pcm_data = 12
    /\ forall k, 0 <= k < 6 ->
         Z.abs (audioop.GETRAWSAMPLE 2 pcm_data (k * 2)
                - audioop.GETRAWSAMPLE 2 (frames three_channels) (k * 2))
         <= 644.
Proof.
  apply (Adapters.transcode_quantisation_error three_channels).
  - reflexivity.
  - reflexivity.
  - discriminate.
  - reflexivity.
Defined.

(** A model server that lists llama3:8b and Ministral-3:14B passes the
    check. *)
Lemma ministral_is_listed :
  check_ollama_connection (probing healthy) run_start
  = (Ok true, (tt, [] ++ [EvHttpGet (OLLAMA_URL ++ "/api/tags") 5])).
Proof.
  apply (Checks.check_ollama_connection_listed (probing healthy)
           tt tt [] {| get_status := 200; get_json := Ok two_models |}
           {[ "models"%string :=
                JArr [named "llama3:8b"; named "Ministral-3:14B"] ]}
           [named "llama3:8b"; named "Ministral-3:14B"]
           ["llama3:8b"; "Ministral-3:14B"]%string).
  - reflexivity.
  - reflexivity.
  - reflexivity.
  - reflexivity.
  - repeat constructor.
Defined.

(** An entry without a name in front of the Ministral entry fails the
    check. *)
Lemma nameless_entry_fails_the_check :
  check_ollama_connection
    (probing {| tags := answers 200 nameless_first;
                root := root healthy;
                engine_loads := Ok tt |})
    run_start
  = (Ok false, (tt, [] ++ [EvHttpGet (OLLAMA_URL ++ "/api/tags") 5])).
Proof.
  apply (Checks.check_ollama_connection_bad_entry
           (probing {| tags := answers 200 nameless_first;
                       root := root healthy;
                       engine_loads := Ok tt |})
           tt tt [] {| get_status := 200; get_json := Ok nameless_first |}
           {[ "models"%string := JArr [JObj ∅; named "Ministral-3:14B"] ]}
           [JObj ∅; named "Ministral-3:14B"] (JObj ∅)).
  - reflexivity.
  - reflexivity.
  - reflexivity.
  - reflexivity.
  - left. reflexivity.
  - exists KeyError. reflexivity.
Defined.

(** A dialogue request that raises with a text that holds a closing
    tag: the console raises on the line that reports it, and the loop is
    left by that exception. *)
Example closing_tag_in_dialogue_error :
  fst (run_demo_loop
         (world {| files := files studio;
                   asr_up := true;
                   asr_answer := asr_answer studio;
                   dialogue := Raise UnexpectedToken;
                   engine := engine studio |})
         [first_step; second_step] [] start)
  = Raise MarkupError.
Proof. vm_compute. reflexivity. Qed.

(** A model server without a Ministral model fails the first check. *)
Example no_ministral_fails_the_check :
  check_ollama_connection (probing no_ministral) run_start
  = (Ok false, (tt, [EvHttpGet "http://localhost:11434/api/tags" 5])).
Proof. vm_compute. reflexivity. Qed.

(** With the dialogue server down the run stops at the third check and
    the exit status is 0. *)
Example failed_check_exit_status :
  program (world (with_directory studio)) (probing rasa_down) run_start
  = (Ok 0,
     (tt, [EvTtsImport;
           EvShow RunningChecks;
           EvPrint CheckingOllama;
           EvHttpGet "http://localhost:11434/api/tags" 5;
           EvPrint OllamaReady;
           EvPrint CheckingAsr;
           Core (EvWsConnect 2); Core EvWsClose; Core EvWsClose;
           EvPrint AsrReady;
           EvPrint CheckingRasa;
           EvHttpGet "http://localhost:5005/" 5;
           EvShow RasaNotRunning;
           EvAsyncSleep 5])).
Proof. vm_compute. reflexivity. Qed.

(** With every check passed and a player that raises on the first
    recording the fatal error is printed and the exit status is 1. *)
Example fatal_error_exit_status :
  program (broken_speaker (with_directory studio)) (probing healthy)
    run_start
  = (Ok 1,
     (tt, [EvTtsImport;
           EvShow RunningChecks;
           EvPrint CheckingOllama;
           EvHttpGet "http://localhost:11434/api/tags" 5;
           EvPrint OllamaReady;
           EvPrint CheckingAsr;
           Core (EvWsConnect 2); Core EvWsClose; Core EvWsClose;
           EvPrint AsrReady;
           EvPrint CheckingRasa;
           EvHttpGet "http://localhost:5005/" 5;
           EvPrint RasaReady;
           EvPrint InitializingNeuTTS;
           EvShow LoadingNeuTTS;
           EvTtsInit;
           EvPrint NeuTTSReady;
           Core (EvPathExists AUDIO_DIR);
           EvShow AllSystemsReady;
           EvAsyncSleep 1;
           Core (EvPathExists first_input);
           Core (EvStatus (UserSpeaking "Transfer Request"));
           Core (EvPlayFile first_input);
           EvPrint (FatalError RuntimeError)])).
Proof. vm_compute. reflexivity. Qed.

(** With every check passed and a transcription server that hangs up
    with the reason [[/oops]], the console raises on the error line of the
    adapter and then again on the fatal error line, which quotes the tag:
    the exception leaves the program. *)
Example closing_tag_leaves_the_program :
  fst (program (hung_up (with_directory studio)) (probing healthy)
         run_start)
  = Raise MarkupError
  /\ last (snd (snd (program (hung_up (with_directory studio))
                       (probing healthy) run_start)))
     = Some (EvPrint (FatalError MarkupError)).
Proof. split; vm_compute; reflexivity. Qed.

(** An engine that does not load, with a text that holds a closing tag:
    the console raises on the line that reports it, before any status is
    shown, and the run is left by that exception. *)
Example closing_tag_in_init_error :
  fst (run_demo (world studio)
         (probing {| tags := tags healthy;
                     root := root healthy;
                     engine_loads := Raise UnexpectedToken |})
         run_start)
  = Raise MarkupError.
Proof. vm_compute. reflexivity. Qed.

End More_runs.
